(** * Password meter: the analyzer and generator of [app.py]

    A shallow embedding of [BLACKLIST], [generate_strong_password],
    [analyze_password] and the three tabs of [main], with the parts of the
    Python runtime they call ([str] methods, the [string] constants, the
    [random] module, numbers). *)

From Stdlib Require Import ZArith NArith QArith Lia Lqa Bool Ascii String.
From Stdlib Require Import Floats.PrimFloat Numbers.Cyclic.Int63.Uint63.
From Stdlib Require Floats.SpecFloat Floats.FloatOps.
From stdpp Require Import base list gmap.

Local Open Scope N_scope.

(** ** Python runtime *)

Module Py.

(** *** Exceptions and results *)

Inductive exn := IndexError | ZeroDivisionError.

Inductive result (A : Type) :=
| Returned (a : A)
| Raised (e : exn).
Arguments Returned {A} a.
Arguments Raised {A} e.

(** *** [str]: a sequence of Unicode code points *)

Definition char := N.
Definition str := list char.

(** An ASCII literal as a [str]. *)
Definition lit (s : string) : str := List.map N_of_ascii (list_ascii_of_string s).

Definition isascii (c : char) : bool := c <? 128.

(** What the Unicode character database decides for text outside ASCII is
    left open: every statement below holds for any such table. *)
Record UnicodeData := {
  uni_isupper : char -> bool;
  uni_islower : char -> bool;
  uni_isdigit : char -> bool;
  uni_lower : str -> str
}.

(** A table in which no code point outside ASCII has a case or a digit value. *)
Definition caseless : UnicodeData :=
  {| uni_isupper := fun _ => false;
     uni_islower := fun _ => false;
     uni_isdigit := fun _ => false;
     uni_lower := fun s => s |}.

Section Str.
Context (ud : UnicodeData).

(** [c.isupper()], [c.islower()], [c.isdigit()] on a one-character string. *)
Definition isupper (c : char) : bool :=
  if isascii c then (65 <=? c) && (c <=? 90) else uni_isupper ud c.

Definition islower (c : char) : bool :=
  if isascii c then (97 <=? c) && (c <=? 122) else uni_islower ud c.

Definition isdigit (c : char) : bool :=
  if isascii c then (48 <=? c) && (c <=? 57) else uni_isdigit ud c.

Definition ascii_lower (c : char) : char :=
  if (65 <=? c) && (c <=? 90) then c + 32 else c.

(** [s.lower()]: on ASCII text only the letters A-Z change. *)
Definition lower (s : str) : str :=
  if forallb isascii s then List.map ascii_lower s else uni_lower ud s.

End Str.

(** *** The constants of the [string] module *)

Definition ascii_lowercase : str := lit "abcdefghijklmnopqrstuvwxyz".
Definition ascii_uppercase : str := lit "ABCDEFGHIJKLMNOPQRSTUVWXYZ".
Definition ascii_letters : str := ascii_lowercase ++ ascii_uppercase.
Definition digits : str := lit "0123456789".
Definition punctuation : str :=
  lit "!" ++ [34] ++ lit "#$%&'()*+,-./:;<=>?@[\]^_`{|}~".

(** [c in s] for a one-character string [c]. *)
Definition contains (s : str) (c : char) : bool := bool_decide (c ∈ s).

(** *** Numbers

    The weights are whatever numbers the caller puts in the dict: the
    program only adds, divides, multiplies and compares them. *)

Class Number (num : Type) := {
  of_int : Z -> num;
  num_add : num -> num -> num;
  num_mul : num -> num -> num;
  num_quot : num -> num -> num;
  num_eq : num -> num -> bool;
  num_ge : num -> num -> bool
}.

(** Exact rationals ([fractions.Fraction], and the reals of the specification). *)
#[export] Instance Q_Number : Number Q := {|
  of_int := inject_Z;
  num_add := Qplus;
  num_mul := Qmult;
  num_quot := Qdiv;
  num_eq := Qeq_bool;
  num_ge := fun a b => Qle_bool b a
|}.

(** IEEE 754 binary64 ([float]), the numbers the sliders of [main] produce;
    [of_int] is exact on the literals of the program. *)
Definition float_of_int (z : Z) : float :=
  if (z <? 0)%Z then PrimFloat.opp (PrimFloat.of_uint63 (Uint63.of_Z (- z)))
  else PrimFloat.of_uint63 (Uint63.of_Z z).

#[export] Instance float_Number : Number float := {|
  of_int := float_of_int;
  num_add := PrimFloat.add;
  num_mul := PrimFloat.mul;
  num_quot := PrimFloat.div;
  num_eq := PrimFloat.eqb;
  num_ge := fun a b => PrimFloat.leb b a
|}.

Section Arith.
Context {num : Type} `{Number num}.

(** [sum(xs)]: a left fold that starts from the int 0. (On floats CPython
    3.12 and later adds with compensation; the binary64 examples below use
    weights on which both ways give the same sums.) *)
Definition sum (xs : list num) : num := fold_left num_add xs (of_int 0).

(** [a / b] *)
Definition truediv (a b : num) : result num :=
  if num_eq b (of_int 0) then Raised ZeroDivisionError else Returned (num_quot a b).

End Arith.

(** [sep.join(parts)] *)
Definition join (sep : string) (parts : list string) : string := String.concat sep parts.

Definition newline : string := String (ascii_of_nat 10) EmptyString.

(** *** The [random] module

    The generator's entropy is a tape of naturals; a draw below [n] reads the
    next entry modulo [n], so the tapes range over every outcome. *)

Definition tape := nat -> nat.

Definition Rand (A : Type) : Type := tape -> result A * tape.

Definition ret {A} (a : A) : Rand A := fun t => (Returned a, t).

Definition raise {A} (e : exn) : Rand A := fun t => (Raised e, t).

Definition bind {A B} (m : Rand A) (k : A -> Rand B) : Rand B :=
  fun t => match m t with
           | (Returned a, t') => k a t'
           | (Raised e, t') => (Raised e, t')
           end.

Declare Scope rand_scope.
Delimit Scope rand_scope with rand.
Notation "x <- m ;; k" := (bind m (fun x => k))
  (at level 100, m at next level, right associativity) : rand_scope.

Local Open Scope rand_scope.

Definition randbelow (n : nat) : Rand nat :=
  fun t => (Returned (t 0%nat mod n)%nat, fun i => t (S i)).

(** [seq[i]] *)
Definition getitem {A} (seq : list A) (i : nat) : Rand A :=
  match seq !! i with
  | Some a => ret a
  | None => raise IndexError
  end.

(** [random.choice(seq)] *)
Definition choice {A} (seq : list A) : Rand A :=
  match seq with
  | [] => raise IndexError
  | _ => i <- randbelow (length seq) ;; getitem seq i
  end.

(** [random.choices(population, k=k)] *)
Fixpoint choices {A} (population : list A) (k : nat) : Rand (list A) :=
  match k with
  | O => ret []
  | S k' =>
      i <- randbelow (length population) ;;
      a <- getitem population i ;;
      rest <- choices population k' ;;
      ret (a :: rest)
  end.

(** [x[i], x[j] = x[j], x[i]] *)
Definition swap {A} (x : list A) (i j : nat) : Rand (list A) :=
  match x !! j, x !! i with
  | Some xj, Some xi => ret (<[j:=xi]> (<[i:=xj]> x))
  | _, _ => raise IndexError
  end.

(** The loop of [random.shuffle]: [for i in reversed(range(1, i + 1))]. *)
Fixpoint shuffle_from {A} (i : nat) (x : list A) : Rand (list A) :=
  match i with
  | O => ret x
  | S i' =>
      j <- randbelow (i + 1) ;;
      x' <- swap x i j ;;
      shuffle_from i' x'
  end.

(** [random.shuffle(x)] *)
Definition shuffle {A} (x : list A) : Rand (list A) :=
  shuffle_from (length x - 1) x.

End Py.


(** ** The application *)

Module App.
Import Py.

(** [BLACKLIST]: the set of common passwords. *)
Definition BLACKLIST : gset str :=
  {[ lit "password"; lit "123456"; lit "123456789"; lit "guest"; lit "admin";
     lit "qwerty"; lit "letmein"; lit "monkey"; lit "sunshine"; lit "iloveyou" ]}.

(** *** [generate_strong_password] *)

Local Open Scope rand_scope.

Definition generate_strong_password (length : Z) : Rand str :=
  let length := if (length <? 8)%Z then 8%Z else length in
  uppercase <- choice ascii_uppercase ;;
  lowercase <- choice ascii_lowercase ;;
  digit <- choice digits ;;
  special <- choice punctuation ;;
  let remaining := (length - 4)%Z in
  let all_chars := ascii_letters ++ digits ++ punctuation in
  rest <- choices all_chars (Z.to_nat remaining) ;;
  let password := [uppercase; lowercase; digit; special] ++ rest in
  password <- shuffle password ;;
  ret password.

(** *** [analyze_password] *)

(** The five keys of the [criteria] and [weights] dicts. *)
Inductive Criterion := Length | Uppercase | Lowercase | Digit | Special.

(** A dict with exactly these keys, inserted in this order. *)
Record dict (V : Type) := Dict {
  at_length : V;
  at_uppercase : V;
  at_lowercase : V;
  at_digit : V;
  at_special : V
}.
Arguments Dict {V}.
Arguments at_length {V}.
Arguments at_uppercase {V}.
Arguments at_lowercase {V}.
Arguments at_digit {V}.
Arguments at_special {V}.

(** [d[k]] *)
Definition get {V} (d : dict V) (k : Criterion) : V :=
  match k with
  | Length => at_length d
  | Uppercase => at_uppercase d
  | Lowercase => at_lowercase d
  | Digit => at_digit d
  | Special => at_special d
  end.

(** [d.items()] and [d.values()], in insertion order. *)
Definition items {V} (d : dict V) : list (Criterion * V) :=
  [(Length, at_length d); (Uppercase, at_uppercase d); (Lowercase, at_lowercase d);
   (Digit, at_digit d); (Special, at_special d)].

Definition values {V} (d : dict V) : list V := List.map snd (items d).

(** The three values of [strength]. *)
Inductive Strength := Weak | Moderate | Strong.

#[export] Instance Strength_eq_dec : EqDecision Strength.
Proof. solve_decision. Defined.

(** The dict [analyze_password] returns: the rejection ([error] true) or the
    analysis ([error] false). *)
Inductive verdict (num : Type) :=
| Rejected (message : string)
| Analysed (criteria : dict bool) (score max_score : num)
           (strength : Strength) (feedback : string).
Arguments Rejected {num}.
Arguments Analysed {num}.

Definition error {num} (v : verdict num) : bool :=
  match v with
  | Rejected _ => true
  | Analysed _ _ _ _ _ => false
  end.

Definition rejection_message : string :=
  "❌ Commonly used password detected! Please choose a different one.".

Definition feedback_header : string := "💡 Strengthen your password by adding:".

Definition affirmative : string := "✅ Perfectly secure password!".

(** The [if]/[elif] chain of the feedback loop. *)
Definition hint (criterion : Criterion) : string :=
  match criterion with
  | Length => "✅ More characters (minimum 8)"
  | Uppercase => "✅ Uppercase letters"
  | Lowercase => "✅ Lowercase letters"
  | Digit => "✅ Numbers"
  | Special => "✅ Special characters"
  end.

(** ["\n".join(feedback) if feedback else ...] *)
Definition feedback_text (feedback : list string) : string :=
  match feedback with
  | [] => affirmative
  | _ => join newline feedback
  end.

Section Analyzer.
Context (ud : UnicodeData) {num : Type} `{Number num}.

(** Criteria checks *)
Definition check_criteria (password : str) : dict bool :=
  {| at_length := (8 <=? length password)%nat;
     at_uppercase := existsb (isupper ud) password;
     at_lowercase := existsb (islower ud) password;
     at_digit := existsb (isdigit ud) password;
     at_special := existsb (contains punctuation) password |}.

(** Score calculation *)
Definition total_score (criteria : dict bool) (weights : dict num) : num :=
  sum (List.map snd (List.filter (fun kv => get criteria (fst kv)) (items weights))).

Definition max_score (weights : dict num) : num := sum (values weights).

(** Determine strength level *)
Definition strength_level (total max : num) : result Strength :=
  if num_eq max (of_int 0) then Returned Weak
  else
    match truediv total max with
    | Raised e => Raised e
    | Returned q =>
        let score_percent := num_mul q (of_int 100) in
        if num_ge score_percent (of_int 80) then Returned Strong
        else if num_ge score_percent (of_int 40) then Returned Moderate
        else Returned Weak
    end.

(** Generate feedback *)
Definition build_feedback (strength : Strength) (criteria : dict bool) : list string :=
  if decide (strength <> Strong) then
    let missing := List.map fst (List.filter (fun kv => negb (snd kv)) (items criteria)) in
    fold_left (fun feedback criterion => feedback ++ [hint criterion])
              missing [feedback_header]
  else [].

Definition analyze_password (password : str) (weights : dict num)
  : result (verdict num) :=
  if bool_decide (lower ud password ∈ BLACKLIST) then
    Returned (Rejected rejection_message)
  else
    let criteria := check_criteria password in
    let total := total_score criteria weights in
    let max := max_score weights in
    match strength_level total max with
    | Raised e => Raised e
    | Returned strength =>
        let feedback := build_feedback strength criteria in
        Returned (Analysed criteria total max strength (feedback_text feedback))
    end.

End Analyzer.

End App.

(** ** The page: what [main] does with the two functions *)

Module Shell.
Import Py App.

(** One dict of [st.session_state.password_analysis]. *)
Record analysis_entry (num : Type) := Entry {
  entry_password : str;
  entry_strength : Strength;
  entry_score : num;
  entry_max_score : num
}.
Arguments Entry {num}.
Arguments entry_password {num}.
Arguments entry_strength {num}.
Arguments entry_score {num}.
Arguments entry_max_score {num}.

(** [st.session_state], once its two lists are initialised. *)
Record session_state (num : Type) := Session {
  password_analysis : list (analysis_entry num);
  generated_passwords : list str
}.
Arguments Session {num}.
Arguments password_analysis {num}.
Arguments generated_passwords {num}.

(** An f-string, piece by piece: literal text, a [str], [{x:.1f}], [{x:.0%}]. *)
Inductive piece (num : Type) :=
| Text (s : string)
| Chars (s : str)
| Fixed1 (x : num)
| Percent0 (x : num).
Arguments Text {num}.
Arguments Chars {num}.
Arguments Fixed1 {num}.
Arguments Percent0 {num}.

(** The calls of [main] that show a value or a message, with their
    arguments. Captions ([header], [subheader], [markdown]) and layout
    ([columns], [tabs]) are not recorded. *)
Inductive call (num : Type) :=
| st_warning (body : string)
| st_error (body : string)
| st_metric (label : string) (value : Strength) (delta : list (piece num))
| st_dataframe (index : string) (rows : list (string * string))
| st_info (body : string)
| st_progress (value : num) (text : list (piece num))
| st_success (body : list (piece num))
| st_download_button (label : string) (data : str) (file_name mime : string)
| st_history (rows : list (analysis_entry num))
| st_write (body : list (piece num)).
Arguments st_warning {num}.
Arguments st_error {num}.
Arguments st_metric {num}.
Arguments st_dataframe {num}.
Arguments st_info {num}.
Arguments st_progress {num}.
Arguments st_success {num}.
Arguments st_download_button {num}.
Arguments st_history {num}.
Arguments st_write {num}.

(** What a run of the script reads and writes: the session state, the page
    drawn so far, and the state of the random generator. *)
Record world (num : Type) := World {
  session : session_state num;
  screen : list (call num);
  rng : tape
}.
Arguments World {num}.
Arguments session {num}.
Arguments screen {num}.
Arguments rng {num}.

Definition UI (num A : Type) : Type := world num -> result A * world num.

Definition ui_ret {num A} (a : A) : UI num A := fun w => (Returned a, w).

Definition ui_bind {num A B} (m : UI num A) (k : A -> UI num B) : UI num B :=
  fun w => match m w with
           | (Returned a, w') => k a w'
           | (Raised e, w') => (Raised e, w')
           end.

Declare Scope ui_scope.
Delimit Scope ui_scope with ui.
Notation "x <- m ;; k" := (ui_bind m (fun x => k))
  (at level 100, m at next level, right associativity) : ui_scope.
Notation "m ;; k" := (ui_bind m (fun _ => k))
  (at level 100, right associativity) : ui_scope.

Local Open Scope ui_scope.

(** A call of [st]. *)
Definition show {num} (c : call num) : UI num unit :=
  fun w => (Returned tt, World (session w) (screen w ++ [c]) (rng w)).

(** A pure computation that may raise. *)
Definition compute {num A} (r : result A) : UI num A := fun w => (r, w).

(** A computation that draws from the random generator. *)
Definition draw {num A} (m : Rand A) : UI num A :=
  fun w => let (r, t) := m (rng w) in (r, World (session w) (screen w) t).

(** [st.session_state.password_analysis.append(entry)] *)
Definition append_analysis {num} (entry : analysis_entry num) : UI num unit :=
  fun w => (Returned tt,
            World (Session (password_analysis (session w) ++ [entry])
                           (generated_passwords (session w)))
                  (screen w) (rng w)).

(** [st.session_state.generated_passwords.append(generated)] *)
Definition append_generated {num} (generated : str) : UI num unit :=
  fun w => (Returned tt,
            World (Session (password_analysis (session w))
                           (generated_passwords (session w) ++ [generated]))
                  (screen w) (rng w)).

Definition read_session {num} : UI num (session_state num) :=
  fun w => (Returned (session w), w).

(** The status column of the criteria table. *)
Definition status (met : bool) : string := if met then "✅" else "❌".

(** The values the widgets of one run return. *)
Record inputs (num : Type) := Inputs {
  weights : dict num;
  user_password : str;
  analyze_clicked : bool;
  pass_length : Z;
  include_numbers : bool;
  include_special : bool;
  generate_clicked : bool
}.
Arguments Inputs {num}.
Arguments weights {num}.
Arguments user_password {num}.
Arguments analyze_clicked {num}.
Arguments pass_length {num}.
Arguments include_numbers {num}.
Arguments include_special {num}.
Arguments generate_clicked {num}.

Section Page.
Context (ud : UnicodeData) {num : Type} `{Number num}.

(** Password Analyzer Tab *)
Definition analyzer_tab (i : inputs num) : UI num unit :=
  if analyze_clicked i then
    match user_password i with
    | [] => show (st_warning "Please enter a password to analyze!")
    | _ =>
        analysis <- compute (analyze_password ud (user_password i) (weights i)) ;;
        match analysis with
        | Rejected message => show (st_error message)
        | Analysed criteria score max strength feedback =>
            show (st_metric "Password Strength" strength
                    [Fixed1 score; Text " / "; Fixed1 max]) ;;
            show (st_dataframe "Criteria"
                    [("Length"%string, status (get criteria Length));
                     ("Uppercase"%string, status (get criteria Uppercase));
                     ("Lowercase"%string, status (get criteria Lowercase));
                     ("Digit"%string, status (get criteria Digit));
                     ("Special"%string, status (get criteria Special))]) ;;
            show (st_info feedback) ;;
            progress <- compute (truediv score max) ;;
            show (st_progress progress [Text "Security Level: "; Percent0 progress]) ;;
            append_analysis (Entry (user_password i) strength score max)
        end
    end
  else ui_ret tt.

(** Password Generator Tab *)
Definition generator_tab (i : inputs num) : UI num unit :=
  if generate_clicked i then
    generated <- draw (generate_strong_password (pass_length i)) ;;
    show (st_success [Text "Generated Password: "; Chars generated]) ;;
    show (st_download_button "Download Password" generated
            "secure_password.txt" "text/plain") ;;
    append_generated generated
  else ui_ret tt.

(** Security Dashboard Tab: the two histories. *)
Definition dashboard_tab : UI num unit :=
  state <- read_session ;;
  match password_analysis state with
  | [] => show (st_write [Text "No password analysis results yet."])
  | _ => show (st_history (password_analysis state))
  end ;;
  match generated_passwords state with
  | [] => show (st_write [Text "No passwords generated yet."])
  | _ =>
      fold_left (fun done password => done ;; show (st_write [Chars password]))
                (generated_passwords state) (ui_ret tt)
  end.

(** [main], from the values of its widgets. *)
Definition main (i : inputs num) : UI num unit :=
  analyzer_tab i ;; generator_tab i ;; dashboard_tab.

(** One run of the script: the page is drawn afresh, the session state is
    kept, also when the run raised. *)
Definition rerun (w : world num) (i : inputs num) : world num :=
  snd (main i (World (session w) [] (rng w))).

(** A session: one run after each interaction. *)
Definition reruns (w : world num) (interactions : list (inputs num)) : world num :=
  fold_left rerun interactions w.

End Page.

End Shell.

Import Py App Shell.

(** ** Vocabulary of the statements *)

(** The dict that holds [v] under every key. *)
Definition uniform {V} (v : V) : dict V := Dict v v v v v.

(** The keys in the insertion order of [criteria]. *)
Definition criteria_order : list Criterion :=
  [Length; Uppercase; Lowercase; Digit; Special].

(** One hint for each failed criterion and none for a satisfied one, in the
    order length, uppercase, lowercase, digit, special. *)
Definition hints_for (criteria : dict bool) : list string :=
  flat_map (fun k => if get criteria k then [] else [hint k]) criteria_order.

(** The labels in increasing order. *)
Definition rank (strength : Strength) : nat :=
  match strength with
  | Weak => 0
  | Moderate => 1
  | Strong => 2
  end.

(** No weight is negative (the sliders of [main] range over 0.0 to 5.0). *)
Definition nonnegative (weights : dict Q) : Prop :=
  forall k, (0 <= get weights k)%Q.

(** What a criterion adds to the score. *)
Definition weight_if (met : bool) (weight : Q) : Q := if met then weight else 0%Q.

(** A lower-case ASCII letter or a digit. *)
Definition lower_alnum (c : char) : bool :=
  (97 <=? c) && (c <=? 122) || (48 <=? c) && (c <=? 57).

(** A printable ASCII character other than the space. *)
Definition printable (c : char) : bool := (33 <=? c) && (c <=? 126).

(** What the analyzer tab draws for an analysis, up to the feedback. *)
Definition analysis_calls {num : Type} (criteria : dict bool) (score max : num)
    (strength : Strength) (feedback : string) : list (call num) :=
  [st_metric "Password Strength" strength [Fixed1 score; Text " / "; Fixed1 max];
   st_dataframe "Criteria"
     [("Length"%string, status (get criteria Length));
      ("Uppercase"%string, status (get criteria Uppercase));
      ("Lowercase"%string, status (get criteria Lowercase));
      ("Digit"%string, status (get criteria Digit));
      ("Special"%string, status (get criteria Special))];
   st_info feedback].

(** What the dashboard draws for a session state. *)
Definition dashboard_calls {num : Type} (state : session_state num) : list (call num) :=
  match password_analysis state with
  | [] => [st_write [Text "No password analysis results yet."]]
  | _ => [st_history (password_analysis state)]
  end ++
  match generated_passwords state with
  | [] => [st_write [Text "No passwords generated yet."]]
  | _ => List.map (fun password => st_write [Chars password]) (generated_passwords state)
  end.

(** An entry of the analysis history that comes from an analysis: of a
    password that is not empty and not blacklisted, with a [max_score] that
    is not 0, and with the score and label of that password. *)
Definition sound_entry (ud : UnicodeData) {num : Type} `{Number num}
    (e : analysis_entry num) : Prop :=
  entry_password e <> [] /\
  (lower ud (entry_password e) ∉ BLACKLIST) /\
  num_eq (entry_max_score e) (of_int 0) = false /\
  exists weights : dict num,
    entry_score e = total_score (check_criteria ud (entry_password e)) weights /\
    entry_max_score e = max_score weights /\
    strength_level (entry_score e) (entry_max_score e) = Returned (entry_strength e).

(** A generated password as the generator leaves it. *)
Definition sound_generated (ud : UnicodeData) (s : str) : Prop :=
  (8 <= length s)%nat /\ check_criteria ud s = uniform true /\ lower ud s ∉ BLACKLIST.

(** Every weight multiplied by [factor]. *)
Definition scale (factor : Q) (weights : dict Q) : dict Q :=
  Dict (factor * at_length weights)%Q (factor * at_uppercase weights)%Q
       (factor * at_lowercase weights)%Q (factor * at_digit weights)%Q
       (factor * at_special weights)%Q.

(** How many of the five criteria are met. *)
Definition met_count (criteria : dict bool) : nat :=
  length (List.filter (fun kv => snd kv) (items criteria)).

(** The characters the generator draws from. *)
Definition all_chars : str := ascii_letters ++ digits ++ punctuation.

(** A tape for the examples. *)
Definition t0 : tape := fun i => (7 * i + 3)%nat.

(** Widget values for the examples: a click on Analyze, a click on Generate. *)
Definition analyze_click {num : Type} (password : str) (weights : dict num) : inputs num :=
  Inputs weights password true 12 true true false.

Definition generate_click {num : Type} (weights : dict num) (length : Z)
    (numbers special : bool) : inputs num :=
  Inputs weights [] false length numbers special true.

(** A fresh session. *)
Definition fresh {num : Type} : world num := World (Session [] []) [] t0.

(** The rational a finite binary64 number stands for. *)
Definition exact (x : float) : Q :=
  match FloatOps.Prim2SF x with
  | SpecFloat.S754_finite negative mantissa exponent =>
      let magnitude := (inject_Z (Zpos mantissa) * Qpower 2 exponent)%Q in
      if negative then Qopp magnitude else magnitude
  | _ => 0%Q
  end.

(** The decimal [k / 10] as a rational and as the nearest binary64 number. *)
Definition tenthsQ (k : Z) : Q := (k # 10)%Q.
Definition tenths (k : Z) : float := PrimFloat.div (float_of_int k) 10.

(** ** The [random] module: every draw returns, and stays in range *)

Section RandFacts.
Context {A : Type}.
Implicit Types (x seq population : list A) (t : tape).

Lemma randbelow_lt n t :
  (0 < n)%nat ->
  exists i, (i < n)%nat /\ randbelow n t = (Returned i, fun k => t (S k)).
Proof.
  intros Hn. exists (t 0%nat mod n)%nat. split; [|reflexivity].
  apply Nat.mod_upper_bound. lia.
Qed.

Lemma getitem_returns seq i t :
  (i < length seq)%nat ->
  exists a, seq !! i = Some a /\ getitem seq i t = (Returned a, t).
Proof.
  intros Hi. destruct (lookup_lt_is_Some_2 seq i Hi) as [a Ha].
  exists a. split; [done|]. unfold getitem. by rewrite Ha.
Qed.

Lemma choice_returns seq t :
  seq <> [] ->
  exists a t', choice seq t = (Returned a, t') /\ a ∈ seq.
Proof.
  intros Hne. destruct seq as [|a0 seq0] eqn:Hseq; [done|]. rewrite <- Hseq.
  assert (Hlen : (0 < length seq)%nat) by (subst seq; simpl; lia).
  destruct (randbelow_lt _ t Hlen) as (i & Hi & Hdraw).
  destruct (getitem_returns seq i (fun k => t (S k)) Hi) as (a & Hlook & Hget).
  exists a, (fun k => t (S k)). split.
  - subst seq. unfold choice, bind. rewrite Hdraw. exact Hget.
  - eapply list_elem_of_lookup_2; eauto.
Qed.

Lemma choices_returns population k t :
  population <> [] ->
  exists l t', choices population k t = (Returned l, t') /\
               length l = k /\ Forall (fun a => a ∈ population) l.
Proof.
  intros Hne.
  assert (Hlen : (0 < length population)%nat)
    by (destruct population; [done | simpl; lia]).
  revert t. induction k as [|k IH]; intros t.
  - exists [], t. repeat split; constructor.
  - destruct (randbelow_lt _ t Hlen) as (i & Hi & Hdraw).
    destruct (getitem_returns population i (fun n => t (S n)) Hi) as (a & Hlook & Hget).
    destruct (IH (fun n => t (S n))) as (l & t' & Hrest & Hl & Hall).
    exists (a :: l), t'. split; [|split].
    + simpl. unfold bind at 1. rewrite Hdraw.
      unfold bind at 1. rewrite Hget.
      unfold bind at 1. rewrite Hrest. reflexivity.
    + simpl. by rewrite Hl.
    + constructor; [|done]. eapply list_elem_of_lookup_2; eauto.
Qed.

(** Overwriting a cell with [h] moves its old content out: the multiset is kept. *)
Lemma insert_exchange x k b h :
  x !! k = Some b -> b :: <[k:=h]> x ≡ₚ h :: x.
Proof.
  revert k. induction x as [|c x IH]; intros [|k] Hk; simplify_eq/=.
  - apply perm_swap.
  - rewrite perm_swap. rewrite (IH k Hk). apply perm_swap.
Qed.

Lemma swap_cells_Permutation x i j xi xj :
  x !! i = Some xi -> x !! j = Some xj -> <[j:=xi]> (<[i:=xj]> x) ≡ₚ x.
Proof.
  revert i j. induction x as [|c x IH]; intros [|i] [|j] Hi Hj; simplify_eq/=.
  - reflexivity.
  - by apply insert_exchange.
  - by apply insert_exchange.
  - f_equiv. by apply IH.
Qed.

Lemma swap_returns x i j t :
  (i < length x)%nat -> (j < length x)%nat ->
  exists x', swap x i j t = (Returned x', t) /\ x' ≡ₚ x.
Proof.
  intros Hi Hj.
  destruct (lookup_lt_is_Some_2 x i Hi) as [xi Hxi].
  destruct (lookup_lt_is_Some_2 x j Hj) as [xj Hxj].
  exists (<[j:=xi]> (<[i:=xj]> x)). split.
  - unfold swap. by rewrite Hxj, Hxi.
  - by apply swap_cells_Permutation.
Qed.

Lemma shuffle_from_returns i x t :
  (i < length x)%nat \/ i = 0%nat ->
  exists x' t', shuffle_from i x t = (Returned x', t') /\ x' ≡ₚ x.
Proof.
  revert x t. induction i as [|i IH]; intros x t Hi.
  - by exists x, t.
  - destruct Hi as [Hi|?]; [|done].
    assert (Hpos : (0 < S i + 1)%nat) by lia.
    destruct (randbelow_lt _ t Hpos) as (j & Hj & Hdraw).
    destruct (swap_returns x (S i) j (fun k => t (S k))) as (x1 & Hswap & Hperm1);
      [lia | lia |].
    destruct (IH x1 (fun k => t (S k))) as (x2 & t2 & Hrec & Hperm2).
    { left. rewrite (Permutation_length Hperm1). lia. }
    exists x2, t2. split.
    + cbn [shuffle_from]. unfold bind at 1. rewrite Hdraw.
      unfold bind at 1. rewrite Hswap. exact Hrec.
    + by rewrite Hperm2.
Qed.

Lemma shuffle_returns x t :
  exists x' t', shuffle x t = (Returned x', t') /\ x' ≡ₚ x.
Proof.
  apply shuffle_from_returns. destruct x; simpl; [right|left]; lia.
Qed.

End RandFacts.

Lemma bind_Returned {A B} (m : Rand A) (k : A -> Rand B) t a t' :
  m t = (Returned a, t') -> bind m k t = k a t'.
Proof. intros Hm. unfold bind. by rewrite Hm. Qed.

Ltac rand_step H := rewrite (bind_Returned _ _ _ _ _ H).

(** ** The generator *)

(** What a run of the generator is made of: the four reserved characters
    and the fill, permuted. *)
Lemma generate_strong_password_returns (n : Z) (t : tape) :
  exists s t' u l d p rest,
    generate_strong_password n t = (Returned s, t') /\
    s ≡ₚ [u; l; d; p] ++ rest /\
    length rest = Z.to_nat (Z.max n 8 - 4) /\
    u ∈ ascii_uppercase /\ l ∈ ascii_lowercase /\ d ∈ digits /\ p ∈ punctuation /\
    Forall (fun c => c ∈ ascii_letters ++ digits ++ punctuation) rest.
Proof.
  unfold generate_strong_password.
  set (len := if (n <? 8)%Z then 8%Z else n).
  assert (Hlen : len = Z.max n 8) by (subst len; destruct (Z.ltb_spec n 8); lia).
  destruct (choice_returns ascii_uppercase t) as (u & t1 & Hu & Hu_in); [done|].
  destruct (choice_returns ascii_lowercase t1) as (l & t2 & Hl & Hl_in); [done|].
  destruct (choice_returns digits t2) as (d & t3 & Hd & Hd_in); [done|].
  destruct (choice_returns punctuation t3) as (p & t4 & Hp & Hp_in); [done|].
  destruct (choices_returns (ascii_letters ++ digits ++ punctuation)
              (Z.to_nat (len - 4)) t4) as (rest & t5 & Hrest & Hk & Hall); [done|].
  destruct (shuffle_returns ([u; l; d; p] ++ rest) t5) as (s & t6 & Hs & Hperm).
  exists s, t6, u, l, d, p, rest. split.
  - rand_step Hu. rand_step Hl. rand_step Hd. rand_step Hp.
    rand_step Hrest. rand_step Hs. reflexivity.
  - rewrite <- Hlen. by repeat split.
Qed.

(** C2. For every integer [n] and every outcome of the random draws (every
    tape), [generate_strong_password n] returns a string of length
    [max n 8] that holds a character of [ascii_uppercase], one of
    [ascii_lowercase], one of [digits] and one of [punctuation]. *)
Theorem generate_strong_password_classes (n : Z) (t : tape) :
  exists s t',
    generate_strong_password n t = (Returned s, t') /\
    Z.of_nat (length s) = Z.max n 8 /\
    (exists c, c ∈ s /\ c ∈ ascii_uppercase) /\
    (exists c, c ∈ s /\ c ∈ ascii_lowercase) /\
    (exists c, c ∈ s /\ c ∈ digits) /\
    (exists c, c ∈ s /\ c ∈ punctuation).
Proof.
  destruct (generate_strong_password_returns n t)
    as (s & t' & u & l & d & p & rest & Hgen & Hperm & Hk & Hu & Hl & Hd & Hp & _).
  exists s, t'. split; [done|]. split.
  - rewrite (Permutation_length Hperm). simpl. rewrite Hk. lia.
  - repeat split; [exists u | exists l | exists d | exists p];
      (split; [rewrite Hperm; simpl; rewrite !elem_of_cons; tauto | done]).
Qed.

Example generate_3 :
  fst (generate_strong_password 3 t0) = Returned (lit "F7MTDk0]").
Proof. reflexivity. Qed.

(** ** The analyzer *)

Section AnalyzerFacts.
Context (ud : UnicodeData) {num : Type} `{Number num}.
Implicit Types (password : str) (weights : dict num) (criteria : dict bool).

(** The division is guarded: the strength level is always computed. *)
Lemma strength_level_returns (total max : num) :
  exists strength, strength_level total max = Returned strength.
Proof.
  unfold strength_level, truediv.
  destruct (num_eq max (of_int 0)); [by eexists|].
  destruct (num_ge _ (of_int 80)); [by eexists|].
  destruct (num_ge _ (of_int 40)); by eexists.
Qed.

Lemma strength_level_zero (total max : num) :
  num_eq max (of_int 0) = true -> strength_level total max = Returned Weak.
Proof. intros Hz. unfold strength_level. by rewrite Hz. Qed.

(** The label follows the two comparisons on the computed percentage. *)
Lemma strength_level_by_tests (total max : num) :
  num_eq max (of_int 0) = false ->
  let score_percent := num_mul (num_quot total max) (of_int 100) in
  exists strength,
    strength_level total max = Returned strength /\
    (strength = Strong <-> num_ge score_percent (of_int 80) = true) /\
    (strength = Moderate <->
       num_ge score_percent (of_int 80) = false /\
       num_ge score_percent (of_int 40) = true) /\
    (strength = Weak <->
       num_ge score_percent (of_int 80) = false /\
       num_ge score_percent (of_int 40) = false).
Proof.
  intros Hnz score_percent. unfold strength_level, truediv. rewrite Hnz.
  fold score_percent.
  destruct (num_ge score_percent (of_int 80)); [|destruct (num_ge score_percent (of_int 40))];
    eexists; (split; [reflexivity|]); repeat split; intros; try done;
    try (destruct_and?; discriminate).
Qed.

Lemma feedback_loop (missing : list Criterion) (feedback : list string) :
  fold_left (fun feedback criterion => feedback ++ [hint criterion]) missing feedback
  = feedback ++ List.map hint missing.
Proof.
  revert feedback. induction missing as [|k missing IH]; intros feedback; simpl.
  - by rewrite app_nil_r.
  - rewrite IH. by rewrite <- app_assoc.
Qed.

Lemma build_feedback_Strong criteria : build_feedback Strong criteria = [].
Proof. unfold build_feedback. by destruct (decide (Strong <> Strong)). Qed.

Lemma build_feedback_not_Strong strength criteria :
  strength <> Strong ->
  build_feedback strength criteria = feedback_header :: hints_for criteria.
Proof.
  intros Hs. unfold build_feedback. destruct (decide (strength <> Strong)); [|done].
  rewrite feedback_loop. destruct criteria as [[] [] [] [] []]; reflexivity.
Qed.

Lemma analyze_password_blacklisted password weights :
  lower ud password ∈ BLACKLIST ->
  analyze_password ud password weights = Returned (Rejected rejection_message).
Proof. intros Hin. unfold analyze_password. by rewrite bool_decide_eq_true_2. Qed.

Lemma analyze_password_analysed password weights strength :
  lower ud password ∉ BLACKLIST ->
  strength_level (total_score (check_criteria ud password) weights) (max_score weights)
    = Returned strength ->
  analyze_password ud password weights
  = Returned (Analysed (check_criteria ud password)
                (total_score (check_criteria ud password) weights)
                (max_score weights) strength
                (feedback_text (build_feedback strength (check_criteria ud password)))).
Proof.
  intros Hout Hs. unfold analyze_password.
  rewrite bool_decide_eq_false_2 by done. by rewrite Hs.
Qed.

End AnalyzerFacts.

Lemma blacklist_entries (s : str) :
  s ∈ [lit "password"; lit "123456"; lit "123456789"; lit "guest"; lit "admin";
       lit "qwerty"; lit "letmein"; lit "monkey"; lit "sunshine"; lit "iloveyou"]
  <-> s ∈ BLACKLIST.
Proof.
  unfold BLACKLIST.
  rewrite !elem_of_union, !elem_of_singleton, !elem_of_cons, elem_of_nil. tauto.
Qed.

Lemma empty_not_blacklisted ud : lower ud [] ∉ BLACKLIST.
Proof. intros Hin. vm_compute in Hin. discriminate. Qed.

Ltac not_blacklisted :=
  let Hin := fresh "Hin" in intros Hin; vm_compute in Hin; discriminate.

(** C1. A password whose lower-cased form is one of the ten blacklist
    entries is rejected, whatever the weights are: [analyze_password]
    returns the rejection verdict, which carries no criteria and no score. *)
Theorem blacklisted_is_rejected ud {num : Type} `{Number num}
    (password : str) (weights : dict num) :
  lower ud password ∈
    [lit "password"; lit "123456"; lit "123456789"; lit "guest"; lit "admin";
     lit "qwerty"; lit "letmein"; lit "monkey"; lit "sunshine"; lit "iloveyou"] ->
  analyze_password ud password weights = Returned (Rejected rejection_message) /\
  error (Rejected (num := num) rejection_message) = true.
Proof.
  intros Hin. split; [|reflexivity].
  apply analyze_password_blacklisted. by apply blacklist_entries.
Qed.

Lemma blacklisted_is_rejected_witness :
  lower caseless (lit "PASSWORD") ∈
    [lit "password"; lit "123456"; lit "123456789"; lit "guest"; lit "admin";
     lit "qwerty"; lit "letmein"; lit "monkey"; lit "sunshine"; lit "iloveyou"] /\
  analyze_password caseless (lit "PASSWORD") (Dict 1%Q 1%Q 0%Q 0%Q 0%Q)
  = Returned (Rejected rejection_message) /\
  error (Rejected (num := Q) rejection_message) = true.
Proof.
  assert (Hin : lower caseless (lit "PASSWORD") ∈
    [lit "password"; lit "123456"; lit "123456789"; lit "guest"; lit "admin";
     lit "qwerty"; lit "letmein"; lit "monkey"; lit "sunshine"; lit "iloveyou"]).
  { vm_compute. apply list_elem_of_here. }
  split; [exact Hin|].
  exact (blacklisted_is_rejected caseless (lit "PASSWORD") (Dict 1%Q 1%Q 0%Q 0%Q 0%Q) Hin).
Defined.

(** The rejected password of the witness would otherwise be Strong. *)
Example PASSWORD_otherwise_Strong :
  strength_level
    (total_score (check_criteria caseless (lit "PASSWORD")) (Dict 1%Q 1%Q 0%Q 0%Q 0%Q))
    (max_score (Dict 1%Q 1%Q 0%Q 0%Q 0%Q)) = Returned Strong.
Proof. reflexivity. Qed.

(** C3, as the code has it. When [max_score] is not 0 (as when it is above
    0), the label of a password that is not blacklisted follows the
    percentage as the code computes it, [(score / max_score) * 100] in the
    arithmetic of the weights, with inclusive lower edges: Strong exactly
    when it is [>= 80]; Moderate exactly when it is [>= 40] and not
    [>= 80]; Weak exactly when it is neither. *)
Theorem strength_follows_computed_percent ud {num : Type} `{Number num}
    (password : str) (weights : dict num) :
  lower ud password ∉ BLACKLIST ->
  num_eq (max_score weights) (of_int 0) = false ->
  exists criteria score max strength feedback,
    analyze_password ud password weights
    = Returned (Analysed criteria score max strength feedback) /\
    score = total_score (check_criteria ud password) weights /\
    max = max_score weights /\
    let score_percent := num_mul (num_quot score max) (of_int 100) in
    (strength = Strong <-> num_ge score_percent (of_int 80) = true) /\
    (strength = Moderate <->
       num_ge score_percent (of_int 80) = false /\
       num_ge score_percent (of_int 40) = true) /\
    (strength = Weak <->
       num_ge score_percent (of_int 80) = false /\
       num_ge score_percent (of_int 40) = false).
Proof.
  intros Hout Hnz.
  destruct (strength_level_by_tests
              (total_score (check_criteria ud password) weights) (max_score weights) Hnz)
    as (strength & Hs & Hiff).
  exists (check_criteria ud password),
    (total_score (check_criteria ud password) weights), (max_score weights), strength,
    (feedback_text (build_feedback strength (check_criteria ud password))).
  split; [by apply analyze_password_analysed|]. split; [reflexivity|].
  split; [reflexivity|]. exact Hiff.
Qed.

Lemma strength_follows_computed_percent_witness :
  (lower caseless (lit "Abc") ∉ BLACKLIST) /\
  num_eq (max_score (Dict 0%float (tenths 1) (tenths 7) 0%float (tenths 2))) (of_int 0)
  = false /\
  exists criteria score max strength feedback,
    analyze_password caseless (lit "Abc")
      (Dict 0%float (tenths 1) (tenths 7) 0%float (tenths 2))
    = Returned (Analysed criteria score max strength feedback) /\
    score = total_score (check_criteria caseless (lit "Abc"))
              (Dict 0%float (tenths 1) (tenths 7) 0%float (tenths 2)) /\
    max = max_score (Dict 0%float (tenths 1) (tenths 7) 0%float (tenths 2)) /\
    let score_percent := num_mul (num_quot score max) (of_int 100) in
    (strength = Strong <-> num_ge score_percent (of_int 80) = true) /\
    (strength = Moderate <->
       num_ge score_percent (of_int 80) = false /\
       num_ge score_percent (of_int 40) = true) /\
    (strength = Weak <->
       num_ge score_percent (of_int 80) = false /\
       num_ge score_percent (of_int 40) = false).
Proof.
  assert (Hout : lower caseless (lit "Abc") ∉ BLACKLIST) by not_blacklisted.
  assert (Hnz : num_eq (max_score (Dict 0%float (tenths 1) (tenths 7) 0%float (tenths 2)))
                  (of_int 0) = false) by (vm_compute; reflexivity).
  split; [exact Hout|]. split; [exact Hnz|].
  exact (strength_follows_computed_percent caseless (lit "Abc")
           (Dict 0%float (tenths 1) (tenths 7) 0%float (tenths 2)) Hout Hnz).
Defined.

(** Two analyses on binary64 weights. With the weights 0.1, 0.7 and 0.2 on
    uppercase, lowercase and special, ["Abc"] is Strong although the
    returned score is below 80 percent of the returned [max_score]: the
    quotient is rounded up to 80.0. With five weights of 2^1023 the sums
    overflow and the percentage of ["Abcdefg1"] is not a number: the label
    is Weak although [max_score] is above 0, four of the five equal weights
    are met and the percentage is not below 40. *)
Lemma binary64_edge_cases :
  (exists criteria score max feedback,
     analyze_password caseless (lit "Abc")
       (Dict 0%float (tenths 1) (tenths 7) 0%float (tenths 2))
     = Returned (Analysed criteria score max Strong feedback) /\
     (0 < exact max)%Q /\
     (exact score / exact max * 100 < 80)%Q) /\
  (exists criteria score max feedback,
     analyze_password caseless (lit "Abcdefg1") (uniform 0x1p1023%float)
     = Returned (Analysed criteria score max Weak feedback) /\
     criteria = Dict true true true true false /\
     PrimFloat.ltb 0 max = true /\
     PrimFloat.ltb (PrimFloat.mul (PrimFloat.div score max) 100) 40 = false).
Proof.
  split.
  - eexists _, _, _, _. split; [vm_compute; reflexivity|].
    split; vm_compute; reflexivity.
  - eexists _, _, _, _. split; [vm_compute; reflexivity|].
    repeat split; vm_compute; reflexivity.
Qed.

(** C3, as stated, fails on binary64 weights with [max_score > 0]: at the
    first input the label is Strong and the percentage of the returned
    score and [max_score] is below 80; at the second the label is Weak and
    the computed percentage is not below 40. *)
Lemma thresholds_fail_on_binary64 :
  ~ (forall criteria score max strength feedback,
       analyze_password caseless (lit "Abc")
         (Dict 0%float (tenths 1) (tenths 7) 0%float (tenths 2))
       = Returned (Analysed criteria score max strength feedback) ->
       (0 < exact max)%Q ->
       (strength = Strong <-> (80 <= exact score / exact max * 100)%Q)) /\
  ~ (forall criteria score max strength feedback,
       analyze_password caseless (lit "Abcdefg1") (uniform 0x1p1023%float)
       = Returned (Analysed criteria score max strength feedback) ->
       PrimFloat.ltb 0 max = true ->
       (strength = Weak <->
        PrimFloat.ltb (PrimFloat.mul (PrimFloat.div score max) 100) 40 = true)).
Proof.
  destruct binary64_edge_cases
    as [(c1 & s1 & m1 & f1 & Heq1 & Hpos1 & Hlt1) (c2 & s2 & m2 & f2 & Heq2 & _ & Hpos2 & Hlt2)].
  split; intros Hclaim.
  - destruct (Hclaim _ _ _ _ _ Heq1 Hpos1) as [Hle _].
    specialize (Hle eq_refl). by apply Qle_not_lt in Hle.
  - destruct (Hclaim _ _ _ _ _ Heq2 Hpos2) as [Hlt _].
    specialize (Hlt eq_refl). congruence.
Qed.

(** On exact weights with [max_score > 0] the computed percentage is the
    real one: the label of a password that is not blacklisted is Strong
    exactly from 80, Moderate exactly in [40, 80), Weak exactly below 40. *)
Lemma strength_thresholds ud (password : str) (weights : dict Q) :
  lower ud password ∉ BLACKLIST ->
  (0 < max_score weights)%Q ->
  exists criteria score max strength feedback,
    analyze_password ud password weights
    = Returned (Analysed criteria score max strength feedback) /\
    score = total_score (check_criteria ud password) weights /\
    max = max_score weights /\
    let percent := (score / max * 100)%Q in
    (strength = Strong <-> (80 <= percent)%Q) /\
    (strength = Moderate <-> (40 <= percent)%Q /\ (percent < 80)%Q) /\
    (strength = Weak <-> (percent < 40)%Q).
Proof.
  intros Hout Hpos.
  set (total := total_score (check_criteria ud password) weights).
  set (max := max_score weights) in *.
  assert (Hnz : Qeq_bool max (inject_Z 0) = false).
  { destruct (Qeq_bool max (inject_Z 0)) eqn:E; [|done].
    apply Qeq_bool_iff in E. rewrite E in Hpos. by apply Qlt_irrefl in Hpos. }
  assert (Hlevel : exists strength,
    strength_level total max = Returned strength /\
    (strength = Strong <-> (80 <= total / max * 100)%Q) /\
    (strength = Moderate <-> (40 <= total / max * 100)%Q /\ (total / max * 100 < 80)%Q) /\
    (strength = Weak <-> (total / max * 100 < 40)%Q)).
  { unfold strength_level, truediv. cbn [num_eq num_ge num_mul num_quot of_int Q_Number].
    rewrite Hnz. change (inject_Z 100) with 100%Q. change (inject_Z 80) with 80%Q.
    change (inject_Z 40) with 40%Q.
    set (percent := (total / max * 100)%Q).
    destruct (Qle_bool 80 percent) eqn:E80.
    - apply Qle_bool_iff in E80. exists Strong. split; [done|].
      repeat split; intros; try done; try lra.
    - assert (H80 : (percent < 80)%Q).
      { apply Qnot_le_lt. intros Hle. apply Qle_bool_iff in Hle. congruence. }
      destruct (Qle_bool 40 percent) eqn:E40.
      + apply Qle_bool_iff in E40. exists Moderate. split; [done|].
        repeat split; intros; try done; try lra.
      + assert (H40 : (percent < 40)%Q).
        { apply Qnot_le_lt. intros Hle. apply Qle_bool_iff in Hle. congruence. }
        exists Weak. split; [done|].
        repeat split; intros; try done; try lra. }
  destruct Hlevel as (strength & Hs & Hiff).
  exists (check_criteria ud password), total, max, strength,
    (feedback_text (build_feedback strength (check_criteria ud password))).
  split; [by apply analyze_password_analysed|]. by repeat split; try apply Hiff.
Qed.

Lemma strength_thresholds_at_80 :
  (lower caseless (lit "Abcdefg1") ∉ BLACKLIST) /\
  (0 < max_score (uniform 1%Q))%Q /\
  exists criteria score max strength feedback,
    analyze_password caseless (lit "Abcdefg1") (uniform 1%Q)
    = Returned (Analysed criteria score max strength feedback) /\
    score = total_score (check_criteria caseless (lit "Abcdefg1")) (uniform 1%Q) /\
    max = max_score (uniform 1%Q) /\
    let percent := (score / max * 100)%Q in
    (strength = Strong <-> (80 <= percent)%Q) /\
    (strength = Moderate <-> (40 <= percent)%Q /\ (percent < 80)%Q) /\
    (strength = Weak <-> (percent < 40)%Q).
Proof.
  assert (Hout : lower caseless (lit "Abcdefg1") ∉ BLACKLIST) by not_blacklisted.
  assert (Hpos : (0 < max_score (uniform 1%Q))%Q) by (vm_compute; reflexivity).
  split; [exact Hout|]. split; [exact Hpos|].
  exact (strength_thresholds caseless (lit "Abcdefg1") (uniform 1%Q) Hout Hpos).
Defined.

(** The two edges, on exact weights and on binary64 weights: four criteria
    of five give 80 and Strong, two of five give 40 and Moderate. *)
Example edge_80_is_Strong :
  analyze_password caseless (lit "Abcdefg1") (uniform 1%Q)
  = Returned (Analysed (Dict true true true true false) 4%Q 5%Q Strong affirmative)
  /\ (4 / 5 * 100 == 80)%Q.
Proof. split; reflexivity. Qed.

Example edge_40_is_Moderate :
  exists feedback,
    analyze_password caseless (lit "ABCDEFGH") (uniform 1%Q)
    = Returned (Analysed (Dict true true false false false) 2%Q 5%Q Moderate feedback)
  /\ (2 / 5 * 100 == 40)%Q.
Proof. eexists. split; reflexivity. Qed.

Example edge_80_is_Strong_float :
  analyze_password caseless (lit "Abcdefg1") (uniform 1%float)
  = Returned (Analysed (Dict true true true true false) 4%float 5%float Strong affirmative)
  /\ PrimFloat.mul (PrimFloat.div 4 5) 100 = 80%float.
Proof. split; vm_compute; reflexivity. Qed.

Example edge_40_is_Moderate_float :
  exists feedback,
    analyze_password caseless (lit "ABCDEFGH") (uniform 1%float)
    = Returned (Analysed (Dict true true false false false) 2%float 5%float Moderate feedback)
  /\ PrimFloat.mul (PrimFloat.div 2 5) 100 = 40%float.
Proof. eexists. split; vm_compute; reflexivity. Qed.

(** On binary64 weights the percentage is the rounded one: 3.8 + 4.6 of
    2.1 + 3.8 + 4.6 is 80 percent in exact arithmetic and Strong, and
    79.99999999999999 in binary64 and Moderate. *)
Example edge_80_exact :
  exists feedback,
    analyze_password caseless (lit "Abc")
      (Dict (tenthsQ 21) (tenthsQ 38) (tenthsQ 46) 0%Q 0%Q)
    = Returned (Analysed (Dict false true true false false)
                  (840 # 100)%Q (10500 # 1000)%Q Strong feedback)
  /\ ((840 # 100) / (10500 # 1000) * 100 == 80)%Q.
Proof. eexists. split; reflexivity. Qed.

Example edge_80_binary64 :
  exists score feedback,
    analyze_password caseless (lit "Abc")
      (Dict (tenths 21) (tenths 38) (tenths 46) 0%float 0%float)
    = Returned (Analysed (Dict false true true false false)
                  score (PrimFloat.div 105 10) Moderate feedback)
  /\ PrimFloat.ltb (PrimFloat.mul (PrimFloat.div score (PrimFloat.div 105 10)) 100) 80 = true.
Proof. eexists _, _. split; vm_compute; reflexivity. Qed.

(** C4. When the label of a password that is not blacklisted is Strong, the
    feedback list stays empty (no hint is emitted) and the returned feedback
    is the single affirmative message, whichever criteria are unmet. *)
Theorem Strong_feedback_is_affirmative ud {num : Type} `{Number num}
    (password : str) (weights : dict num) :
  lower ud password ∉ BLACKLIST ->
  exists criteria score max strength feedback,
    analyze_password ud password weights
    = Returned (Analysed criteria score max strength feedback) /\
    (strength = Strong ->
     build_feedback strength criteria = [] /\ feedback = affirmative).
Proof.
  intros Hout.
  destruct (strength_level_returns
              (total_score (check_criteria ud password) weights) (max_score weights))
    as [strength Hs].
  eexists _, _, _, strength, _. split; [by apply analyze_password_analysed|].
  intros ->. by rewrite build_feedback_Strong.
Qed.

Lemma Strong_feedback_is_affirmative_witness :
  (lower caseless (lit "Abcdefg1") ∉ BLACKLIST) /\
  exists criteria score max strength feedback,
    analyze_password caseless (lit "Abcdefg1") (Dict 1%Q 1%Q 1%Q 1%Q 0%Q)
    = Returned (Analysed criteria score max strength feedback) /\
    (strength = Strong ->
     build_feedback strength criteria = [] /\ feedback = affirmative).
Proof.
  assert (Hout : lower caseless (lit "Abcdefg1") ∉ BLACKLIST) by not_blacklisted.
  split; [exact Hout|].
  exact (Strong_feedback_is_affirmative caseless (lit "Abcdefg1")
           (Dict 1%Q 1%Q 1%Q 1%Q 0%Q) Hout).
Defined.

(** Strong with an unmet criterion of weight zero: no hint for it. *)
Example Strong_with_unmet_zero_weight :
  analyze_password caseless (lit "Abcdefg1") (Dict 1%Q 1%Q 1%Q 1%Q 0%Q)
  = Returned (Analysed (Dict true true true true false) 4%Q 4%Q Strong affirmative).
Proof. reflexivity. Qed.

(** C5, as the code has it. With all weights 1, ["PASSWORD"] is rejected:
    its lower-cased form is the blacklist entry ["password"]. The criteria
    and the scoring, which the rejection skips, would give length and
    uppercase true, the other three false, 2 of 5, 40 percent, Moderate. *)
Theorem PASSWORD_is_rejected ud :
  analyze_password ud (lit "PASSWORD") (uniform 1%Q)
  = Returned (Rejected rejection_message) /\
  check_criteria ud (lit "PASSWORD") = Dict true true false false false /\
  total_score (Dict true true false false false) (uniform 1%Q) = 2%Q /\
  max_score (uniform 1%Q) = 5%Q /\
  (2 / 5 * 100 == 40)%Q /\
  strength_level 2%Q 5%Q = Returned Moderate.
Proof. repeat split. Qed.

(** C5, as stated, fails: ["PASSWORD"] gets no success verdict. *)
Lemma PASSWORD_not_analysed :
  ~ exists criteria score max strength feedback,
      analyze_password caseless (lit "PASSWORD") (uniform 1%Q)
      = Returned (Analysed criteria score max strength feedback).
Proof. intros (criteria & score & max & strength & feedback & Heq). discriminate Heq. Qed.

(** C6. When [max_score == 0], a password that is not blacklisted is Weak,
    whatever criteria it satisfies. *)
Theorem zero_max_score_is_Weak ud {num : Type} `{Number num}
    (password : str) (weights : dict num) :
  lower ud password ∉ BLACKLIST ->
  num_eq (max_score weights) (of_int 0) = true ->
  exists feedback,
    analyze_password ud password weights
    = Returned (Analysed (check_criteria ud password)
                  (total_score (check_criteria ud password) weights)
                  (max_score weights) Weak feedback).
Proof.
  intros Hout Hz. eexists. apply analyze_password_analysed; [done|].
  by apply strength_level_zero.
Qed.

Lemma zero_max_score_is_Weak_witness :
  (lower caseless (lit "Abcdefg1!") ∉ BLACKLIST) /\
  num_eq (max_score (uniform 0%Q)) (of_int 0) = true /\
  exists feedback,
    analyze_password caseless (lit "Abcdefg1!") (uniform 0%Q)
    = Returned (Analysed (check_criteria caseless (lit "Abcdefg1!"))
                  (total_score (check_criteria caseless (lit "Abcdefg1!")) (uniform 0%Q))
                  (max_score (uniform 0%Q)) Weak feedback).
Proof.
  assert (Hout : lower caseless (lit "Abcdefg1!") ∉ BLACKLIST) by not_blacklisted.
  assert (Hz : num_eq (max_score (uniform 0%Q)) (of_int 0) = true) by reflexivity.
  split; [exact Hout|]. split; [exact Hz|].
  exact (zero_max_score_is_Weak caseless (lit "Abcdefg1!") (uniform 0%Q) Hout Hz).
Defined.

(** The hint texts are pairwise different: a hint names its criterion. *)
Lemma hint_inj (k1 k2 : Criterion) : hint k1 = hint k2 -> k1 = k2.
Proof. destruct k1, k2; intros Heq; first [reflexivity | discriminate Heq]. Qed.

Lemma hints_for_spec (criteria : dict bool) (k : Criterion) :
  hint k ∈ hints_for criteria <-> get criteria k = false.
Proof.
  destruct criteria as [[] [] [] [] []], k; vm_compute; split; intros Hk;
    first [ reflexivity | discriminate Hk
          | repeat (first [apply list_elem_of_here | apply list_elem_of_further])
          | idtac ].
  all: repeat (apply elem_of_cons in Hk as [Hk|Hk]; [discriminate Hk|]).
  all: by apply elem_of_nil in Hk.
Qed.



(** The example of the specification: four hints for ["abc"]. *)
Example abc_feedback :
  analyze_password caseless (lit "abc") (uniform 1%Q)
  = Returned (Analysed (Dict false false true false false) 1%Q 5%Q Weak
      (join newline [feedback_header; hint Length; hint Uppercase; hint Digit; hint Special])).
Proof. reflexivity. Qed.

Example Abcdefg1_bang_is_Strong :
  analyze_password caseless (lit "Abcdefg1!") (uniform 1%Q)
  = Returned (Analysed (uniform true) 5%Q 5%Q Strong affirmative).
Proof. reflexivity. Qed.

(** C8. [analyze_password] raises on no input; the empty password is not
    blacklisted, fails all five criteria and is analysed with score 0. *)
Theorem analyze_password_never_raises ud {num : Type} `{Number num} :
  (forall (password : str) (weights : dict num),
      exists v, analyze_password ud password weights = Returned v) /\
  (forall weights : dict num,
      (lower ud [] ∉ BLACKLIST) /\
      exists strength feedback,
        analyze_password ud [] weights
        = Returned (Analysed (uniform false) (of_int 0) (max_score weights)
                      strength feedback)).
Proof.
  split.
  - intros password weights.
    destruct (decide (lower ud password ∈ BLACKLIST)) as [Hin|Hout].
    + eexists. by apply analyze_password_blacklisted.
    + destruct (strength_level_returns
                  (total_score (check_criteria ud password) weights) (max_score weights))
        as [strength Hs].
      eexists. by apply analyze_password_analysed.
  - intros weights. split; [apply empty_not_blacklisted|].
    destruct (strength_level_returns
                (total_score (check_criteria ud []) weights) (max_score weights))
      as [strength Hs].
    exists strength. eexists.
    apply (analyze_password_analysed ud [] weights strength (empty_not_blacklisted ud) Hs).
Qed.

(** The generator depends on the random draws: two tapes, two passwords. *)
Example generate_depends_on_tape :
  fst (generate_strong_password 8 t0) <> fst (generate_strong_password 8 (fun _ => 0%nat)).
Proof. vm_compute. discriminate. Qed.

Lemma prefix_append (s r : string) : String.prefix s (s ++ r) = true.
Proof.
  induction s as [|c s IH]; simpl; [by destruct r|].
  by destruct (ascii_dec c c).
Qed.

Lemma join_header (hints : list string) :
  exists rest, join newline (feedback_header :: hints) = (feedback_header ++ rest)%string.
Proof.
  destruct hints as [|h hints].
  - exists EmptyString. reflexivity.
  - by exists (newline ++ join newline (h :: hints))%string.
Qed.

Lemma feedback_text_header (hints : list string) :
  feedback_text (feedback_header :: hints) = join newline (feedback_header :: hints).
Proof. reflexivity. Qed.

(** C10. When the label of a password that is not blacklisted is not
    Strong, the feedback is not empty and starts with the header line, the
    hints coming after it; with [max_score == 0] and all five criteria
    satisfied the label is Weak and the feedback is the header alone. *)
Theorem feedback_starts_with_header ud {num : Type} `{Number num}
    (password : str) (weights : dict num) :
  lower ud password ∉ BLACKLIST ->
  exists score max strength feedback,
    analyze_password ud password weights
    = Returned (Analysed (check_criteria ud password) score max strength feedback) /\
    (strength <> Strong ->
     feedback <> EmptyString /\
     String.prefix feedback_header feedback = true /\
     feedback = join newline (feedback_header :: hints_for (check_criteria ud password))) /\
    (num_eq (max_score weights) (of_int 0) = true ->
     check_criteria ud password = uniform true ->
     strength = Weak /\ feedback = feedback_header).
Proof.
  intros Hout.
  destruct (strength_level_returns
              (total_score (check_criteria ud password) weights) (max_score weights))
    as [strength Hs].
  eexists _, _, strength, _. split; [by apply analyze_password_analysed|]. split.
  - intros Hne. rewrite (build_feedback_not_Strong _ _ Hne), feedback_text_header.
    destruct (join_header (hints_for (check_criteria ud password))) as [rest ->].
    split; [discriminate|]. split; [apply prefix_append | reflexivity].
  - intros Hz Hall. rewrite (strength_level_zero _ _ Hz) in Hs.
    injection Hs as <-. split; [reflexivity|].
    rewrite build_feedback_not_Strong by discriminate. by rewrite Hall.
Qed.

Lemma feedback_starts_with_header_witness :
  (lower caseless (lit "Abcdefg1!") ∉ BLACKLIST) /\
  exists score max strength feedback,
    analyze_password caseless (lit "Abcdefg1!") (uniform 0%Q)
    = Returned (Analysed (check_criteria caseless (lit "Abcdefg1!"))
                  score max strength feedback) /\
    (strength <> Strong ->
     feedback <> EmptyString /\
     String.prefix feedback_header feedback = true /\
     feedback = join newline
                  (feedback_header :: hints_for (check_criteria caseless (lit "Abcdefg1!")))) /\
    (num_eq (max_score (uniform 0%Q)) (of_int 0) = true ->
     check_criteria caseless (lit "Abcdefg1!") = uniform true ->
     strength = Weak /\ feedback = feedback_header).
Proof.
  assert (Hout : lower caseless (lit "Abcdefg1!") ∉ BLACKLIST) by not_blacklisted.
  split; [exact Hout|].
  exact (feedback_starts_with_header caseless (lit "Abcdefg1!") (uniform 0%Q) Hout).
Defined.

(** All criteria satisfied and all weights zero: Weak, and the header alone. *)
Example header_alone :
  analyze_password caseless (lit "Abcdefg1!") (uniform 0%Q)
  = Returned (Analysed (uniform true) 0%Q 0%Q Weak feedback_header).
Proof. reflexivity. Qed.

(** ** The generator and the analyzer together *)

(** Every outcome below the bound is drawn by some tape. *)
Lemma randbelow_any (n i : nat) :
  (i < n)%nat -> exists t, fst (randbelow n t) = Returned i.
Proof.
  intros Hi. exists (fun _ => i). unfold randbelow. simpl.
  by rewrite Nat.mod_small.
Qed.

Lemma pools_meet_criteria ud :
  Forall (fun c => isupper ud c = true) ascii_uppercase /\
  Forall (fun c => islower ud c = true) ascii_lowercase /\
  Forall (fun c => isdigit ud c = true) digits.
Proof. repeat split; repeat constructor. Qed.

Lemma existsb_elem {A} (f : A -> bool) (l : list A) (a : A) :
  a ∈ l -> f a = true -> existsb f l = true.
Proof.
  intros Hin Hf. apply existsb_exists. exists a. split; [|done].
  by apply list_elem_of_In.
Qed.

(** X17. A generated password meets all five criteria of the analyzer. *)
Theorem generated_password_meets_criteria ud (n : Z) (t : tape) :
  exists s t',
    generate_strong_password n t = (Returned s, t') /\
    check_criteria ud s = uniform true.
Proof.
  destruct (generate_strong_password_returns n t)
    as (s & t' & u & l & d & p & rest & Hgen & Hperm & Hk & Hu' & Hl' & Hd' & Hp' & _).
  assert (Hin : forall c, c ∈ [u; l; d; p] -> c ∈ s).
  { intros c Hc. rewrite Hperm. apply elem_of_app. by left. }
  assert (Hu : u ∈ s) by (apply Hin; rewrite !elem_of_cons; tauto).
  assert (Hl : l ∈ s) by (apply Hin; rewrite !elem_of_cons; tauto).
  assert (Hd : d ∈ s) by (apply Hin; rewrite !elem_of_cons; tauto).
  assert (Hp : p ∈ s) by (apply Hin; rewrite !elem_of_cons; tauto).
  destruct (pools_meet_criteria ud) as (Hupper & Hlower & Hdigit).
  exists s, t'. split; [done|]. unfold check_criteria, uniform. f_equal.
  - apply Nat.leb_le. rewrite (Permutation_length Hperm). simpl. lia.
  - apply (existsb_elem _ _ u Hu). by apply (proj1 (Forall_forall _ _) Hupper).
  - apply (existsb_elem _ _ l Hl). by apply (proj1 (Forall_forall _ _) Hlower).
  - apply (existsb_elem _ _ d Hd). by apply (proj1 (Forall_forall _ _) Hdigit).
  - apply (existsb_elem _ _ p Hp). unfold contains. by apply bool_decide_eq_true_2.
Qed.

(** ** More on the analyzer *)

(** *** Rejection *)

(** X1. [analyze_password] returns the rejection exactly when the
    lower-cased password is in [BLACKLIST]; every other password is
    analysed. *)
Theorem rejected_iff_blacklisted ud {num : Type} `{Number num}
    (password : str) (weights : dict num) :
  (lower ud password ∈ BLACKLIST <->
   analyze_password ud password weights = Returned (Rejected rejection_message)) /\
  (lower ud password ∉ BLACKLIST <->
   exists criteria score max strength feedback,
     analyze_password ud password weights
     = Returned (Analysed criteria score max strength feedback)).
Proof.
  destruct (decide (lower ud password ∈ BLACKLIST)) as [Hin|Hout].
  - pose proof (analyze_password_blacklisted ud password weights Hin) as Hrej.
    split; split; try done.
    intros (c & s & m & st & fb & Heq). congruence.
  - destruct (strength_level_returns
                (total_score (check_criteria ud password) weights) (max_score weights))
      as [strength Hs].
    pose proof (analyze_password_analysed ud password weights strength Hout Hs) as Han.
    split; split; try done.
    + intros Hrej. congruence.
    + intros _. by eexists _, _, _, _, _.
Qed.

Lemma ascii_lower_ascii (c : char) : isascii c = true -> isascii (ascii_lower c) = true.
Proof.
  unfold isascii, ascii_lower. intros Hc. apply N.ltb_lt in Hc.
  destruct ((65 <=? c) && (c <=? 90)) eqn:E; apply N.ltb_lt; [|lia].
  apply andb_true_iff in E as [_ E]. apply N.leb_le in E. lia.
Qed.

Lemma ascii_lower_idemp (c : char) : ascii_lower (ascii_lower c) = ascii_lower c.
Proof.
  unfold ascii_lower. destruct ((65 <=? c) && (c <=? 90)) eqn:E; [|by rewrite E].
  apply andb_true_iff in E as [E1 E2]. apply N.leb_le in E1, E2.
  destruct ((65 <=? c + 32) && (c + 32 <=? 90)) eqn:E'; [|done].
  apply andb_true_iff in E' as [_ E']. apply N.leb_le in E'. lia.
Qed.

Lemma lower_ascii ud (s : str) :
  forallb isascii s = true -> lower ud s = List.map ascii_lower s.
Proof. intros Hs. unfold lower. by rewrite Hs. Qed.

Lemma forallb_isascii_lower (s : str) :
  forallb isascii s = true -> forallb isascii (List.map ascii_lower s) = true.
Proof.
  rewrite !forallb_forall. intros Hs c Hc.
  apply in_map_iff in Hc as (c0 & <- & Hc0). apply ascii_lower_ascii. by apply Hs.
Qed.

(** X2. On ASCII passwords [lower] keeps the length and is idempotent, so
    a password is rejected exactly when its lower-cased form is. *)
Theorem rejection_ignores_case ud {num : Type} `{Number num}
    (password : str) (weights : dict num) :
  forallb isascii password = true ->
  length (lower ud password) = length password /\
  lower ud (lower ud password) = lower ud password /\
  (analyze_password ud password weights = Returned (Rejected rejection_message) <->
   analyze_password ud (lower ud password) weights = Returned (Rejected rejection_message)).
Proof.
  intros Hascii.
  assert (Hidem : lower ud (lower ud password) = lower ud password).
  { rewrite (lower_ascii ud password Hascii).
    rewrite (lower_ascii ud _ (forallb_isascii_lower _ Hascii)).
    rewrite List.map_map. apply List.map_ext. apply ascii_lower_idemp. }
  split; [|split; [exact Hidem|]].
  - rewrite (lower_ascii ud password Hascii). apply length_map.
  - unfold analyze_password. rewrite Hidem.
    destruct (bool_decide (lower ud password ∈ BLACKLIST)); [done|].
    split; intros Heq;
      repeat match type of Heq with
             | context [match ?r with _ => _ end] => destruct r
             end; discriminate Heq.
Qed.

Lemma rejection_ignores_case_witness :
  forallb isascii (lit "PassWord") = true /\
  length (lower caseless (lit "PassWord")) = length (lit "PassWord") /\
  lower caseless (lower caseless (lit "PassWord")) = lower caseless (lit "PassWord") /\
  (analyze_password caseless (lit "PassWord") (uniform 1%Q)
   = Returned (Rejected rejection_message) <->
   analyze_password caseless (lower caseless (lit "PassWord")) (uniform 1%Q)
   = Returned (Rejected rejection_message)).
Proof.
  assert (Hascii : forallb isascii (lit "PassWord") = true) by reflexivity.
  split; [exact Hascii|].
  exact (rejection_ignores_case caseless (lit "PassWord") (uniform 1%Q) Hascii).
Defined.

(** *** Scores on exact weights *)

Lemma total_score_terms (criteria : dict bool) (weights : dict Q) :
  (total_score criteria weights ==
   weight_if (at_length criteria) (at_length weights) +
   weight_if (at_uppercase criteria) (at_uppercase weights) +
   weight_if (at_lowercase criteria) (at_lowercase weights) +
   weight_if (at_digit criteria) (at_digit weights) +
   weight_if (at_special criteria) (at_special weights))%Q.
Proof.
  destruct criteria as [[] [] [] [] []], weights as [a b c d e];
    unfold total_score, sum, weight_if; cbn; ring.
Qed.

Lemma max_score_terms (weights : dict Q) :
  (max_score weights ==
   at_length weights + at_uppercase weights + at_lowercase weights +
   at_digit weights + at_special weights)%Q.
Proof. destruct weights as [a b c d e]. unfold max_score, sum. cbn. ring. Qed.

Lemma weight_if_bounds (met : bool) (weight : Q) :
  (0 <= weight -> 0 <= weight_if met weight <= weight)%Q.
Proof. intros Hw. destruct met; simpl; lra. Qed.

Lemma weight_if_mono (met1 met2 : bool) (weight : Q) :
  (0 <= weight)%Q -> (met1 = true -> met2 = true) ->
  (weight_if met1 weight <= weight_if met2 weight)%Q.
Proof.
  intros Hw Himp. destruct met1, met2; simpl;
    first [lra | by specialize (Himp eq_refl)].
Qed.

Lemma score_bounds (criteria : dict bool) (weights : dict Q) :
  nonnegative weights ->
  (0 <= total_score criteria weights <= max_score weights)%Q.
Proof.
  intros Hw. rewrite total_score_terms, max_score_terms.
  pose proof (weight_if_bounds (at_length criteria) _ (Hw Length)).
  pose proof (weight_if_bounds (at_uppercase criteria) _ (Hw Uppercase)).
  pose proof (weight_if_bounds (at_lowercase criteria) _ (Hw Lowercase)).
  pose proof (weight_if_bounds (at_digit criteria) _ (Hw Digit)).
  pose proof (weight_if_bounds (at_special criteria) _ (Hw Special)).
  simpl in *. lra.
Qed.

Lemma score_mono (criteria1 criteria2 : dict bool) (weights : dict Q) :
  nonnegative weights ->
  (forall k, get criteria1 k = true -> get criteria2 k = true) ->
  (total_score criteria1 weights <= total_score criteria2 weights)%Q.
Proof.
  intros Hw Himp. rewrite !total_score_terms.
  pose proof (weight_if_mono _ _ _ (Hw Length) (Himp Length)).
  pose proof (weight_if_mono _ _ _ (Hw Uppercase) (Himp Uppercase)).
  pose proof (weight_if_mono _ _ _ (Hw Lowercase) (Himp Lowercase)).
  pose proof (weight_if_mono _ _ _ (Hw Digit) (Himp Digit)).
  pose proof (weight_if_mono _ _ _ (Hw Special) (Himp Special)).
  simpl in *. lra.
Qed.

(** The label on exact numbers, by the position of the percentage. *)
Lemma strength_level_exact (total max : Q) :
  ~ (max == 0)%Q ->
  exists strength,
    strength_level total max = Returned strength /\
    (strength = Strong <-> (80 <= total / max * 100)%Q) /\
    (strength = Moderate <-> (40 <= total / max * 100)%Q /\ (total / max * 100 < 80)%Q) /\
    (strength = Weak <-> (total / max * 100 < 40)%Q).
Proof.
  intros Hnz.
  assert (Hnzb : Qeq_bool max (inject_Z 0) = false).
  { destruct (Qeq_bool max (inject_Z 0)) eqn:E; [|done].
    apply Qeq_bool_iff in E. by destruct Hnz. }
  unfold strength_level, truediv. cbn [num_eq num_ge num_mul num_quot of_int Q_Number].
  rewrite Hnzb. change (inject_Z 100) with 100%Q. change (inject_Z 80) with 80%Q.
  change (inject_Z 40) with 40%Q.
  set (percent := (total / max * 100)%Q).
  destruct (Qle_bool 80 percent) eqn:E80.
  - apply Qle_bool_iff in E80. exists Strong. split; [done|].
    repeat split; intros; try done; try lra.
  - assert (H80 : (percent < 80)%Q).
    { apply Qnot_le_lt. intros Hle. apply Qle_bool_iff in Hle. congruence. }
    destruct (Qle_bool 40 percent) eqn:E40.
    + apply Qle_bool_iff in E40. exists Moderate. split; [done|].
      repeat split; intros; try done; try lra.
    + assert (H40 : (percent < 40)%Q).
      { apply Qnot_le_lt. intros Hle. apply Qle_bool_iff in Hle. congruence. }
      exists Weak. split; [done|].
      repeat split; intros; try done; try lra.
Qed.

Lemma strength_level_exact_zero (total max : Q) :
  (max == 0)%Q -> strength_level total max = Returned Weak.
Proof. intros Hz. apply strength_level_zero. by apply Qeq_bool_iff. Qed.

Lemma percent_mono (total1 total2 max : Q) :
  (0 < max)%Q -> (total1 <= total2)%Q ->
  (total1 / max * 100 <= total2 / max * 100)%Q.
Proof.
  intros Hm Hle. apply Qmult_le_compat_r; [|lra].
  unfold Qdiv. apply Qmult_le_compat_r; [done|].
  apply Qlt_le_weak. by apply Qinv_lt_0_compat.
Qed.

Lemma strength_level_mono (total1 total2 max : Q) strength1 strength2 :
  (0 <= max)%Q -> (total1 <= total2)%Q ->
  strength_level total1 max = Returned strength1 ->
  strength_level total2 max = Returned strength2 ->
  (rank strength1 <= rank strength2)%nat.
Proof.
  intros Hm Hle Hs1 Hs2.
  destruct (Qeq_dec max 0) as [Hz|Hnz].
  - rewrite (strength_level_exact_zero _ _ Hz) in Hs1.
    rewrite (strength_level_exact_zero _ _ Hz) in Hs2.
    injection Hs1 as <-. injection Hs2 as <-. done.
  - assert (Hpos : (0 < max)%Q).
    { apply Qle_lteq in Hm as [Hm|Hm]; [done|]. destruct Hnz. by symmetry. }
    pose proof (percent_mono _ _ _ Hpos Hle) as Hp.
    destruct (strength_level_exact total1 max Hnz) as (s1 & Hs1' & HS1 & HM1 & HW1).
    destruct (strength_level_exact total2 max Hnz) as (s2 & Hs2' & HS2 & HM2 & HW2).
    rewrite Hs1 in Hs1'. rewrite Hs2 in Hs2'.
    injection Hs1' as <-. injection Hs2' as <-.
    destruct strength1, strength2; simpl; try lia.
    + destruct (proj1 HM1 eq_refl). pose proof (proj1 HW2 eq_refl). lra.
    + pose proof (proj1 HS1 eq_refl). pose proof (proj1 HW2 eq_refl). lra.
    + pose proof (proj1 HS1 eq_refl). destruct (proj1 HM2 eq_refl). lra.
Qed.

(** X3. With weights that are not negative, the score lies between 0 and
    [max_score], and so does every score [analyze_password] returns. *)
Theorem score_within_max ud (password : str) (weights : dict Q) :
  nonnegative weights ->
  lower ud password ∉ BLACKLIST ->
  exists criteria score max strength feedback,
    analyze_password ud password weights
    = Returned (Analysed criteria score max strength feedback) /\
    (0 <= score)%Q /\ (score <= max)%Q.
Proof.
  intros Hw Hout.
  destruct (strength_level_returns
              (total_score (check_criteria ud password) weights) (max_score weights))
    as [strength Hs].
  eexists _, _, _, strength, _. split; [by apply analyze_password_analysed|].
  apply score_bounds, Hw.
Qed.

Lemma nonnegative_uniform_1 : nonnegative (uniform 1%Q).
Proof. intros []; simpl; lra. Defined.

Lemma score_within_max_witness :
  nonnegative (uniform 1%Q) /\
  (lower caseless (lit "abc") ∉ BLACKLIST) /\
  exists criteria score max strength feedback,
    analyze_password caseless (lit "abc") (uniform 1%Q)
    = Returned (Analysed criteria score max strength feedback) /\
    (0 <= score)%Q /\ (score <= max)%Q.
Proof.
  assert (Hout : lower caseless (lit "abc") ∉ BLACKLIST) by not_blacklisted.
  split; [exact nonnegative_uniform_1|]. split; [exact Hout|].
  exact (score_within_max caseless (lit "abc") (uniform 1%Q) nonnegative_uniform_1 Hout).
Defined.

(** X4. With weights that are not negative, a password that meets every
    criterion another password meets gets at least its score and at least
    its label. *)
Theorem more_criteria_never_rate_lower ud (password1 password2 : str) (weights : dict Q) :
  nonnegative weights ->
  lower ud password1 ∉ BLACKLIST ->
  lower ud password2 ∉ BLACKLIST ->
  (forall k, get (check_criteria ud password1) k = true ->
             get (check_criteria ud password2) k = true) ->
  exists score1 strength1 feedback1 score2 strength2 feedback2,
    analyze_password ud password1 weights
    = Returned (Analysed (check_criteria ud password1) score1 (max_score weights)
                  strength1 feedback1) /\
    analyze_password ud password2 weights
    = Returned (Analysed (check_criteria ud password2) score2 (max_score weights)
                  strength2 feedback2) /\
    (score1 <= score2)%Q /\ (rank strength1 <= rank strength2)%nat.
Proof.
  intros Hw Hout1 Hout2 Himp.
  destruct (strength_level_returns
              (total_score (check_criteria ud password1) weights) (max_score weights))
    as [strength1 Hs1].
  destruct (strength_level_returns
              (total_score (check_criteria ud password2) weights) (max_score weights))
    as [strength2 Hs2].
  pose proof (score_mono _ _ weights Hw Himp) as Hle.
  eexists _, strength1, _, _, strength2, _.
  split; [by apply analyze_password_analysed|].
  split; [by apply analyze_password_analysed|].
  split; [exact Hle|].
  eapply strength_level_mono; [| exact Hle | exact Hs1 | exact Hs2].
  apply Qle_trans with (total_score (check_criteria ud password1) weights);
    apply score_bounds, Hw.
Qed.

Lemma more_criteria_never_rate_lower_witness :
  nonnegative (uniform 1%Q) /\
  (lower caseless (lit "abc") ∉ BLACKLIST) /\
  (lower caseless (lit "Abc1") ∉ BLACKLIST) /\
  (forall k, get (check_criteria caseless (lit "abc")) k = true ->
             get (check_criteria caseless (lit "Abc1")) k = true) /\
  exists score1 strength1 feedback1 score2 strength2 feedback2,
    analyze_password caseless (lit "abc") (uniform 1%Q)
    = Returned (Analysed (check_criteria caseless (lit "abc")) score1
                  (max_score (uniform 1%Q)) strength1 feedback1) /\
    analyze_password caseless (lit "Abc1") (uniform 1%Q)
    = Returned (Analysed (check_criteria caseless (lit "Abc1")) score2
                  (max_score (uniform 1%Q)) strength2 feedback2) /\
    (score1 <= score2)%Q /\ (rank strength1 <= rank strength2)%nat.
Proof.
  assert (Hout1 : lower caseless (lit "abc") ∉ BLACKLIST) by not_blacklisted.
  assert (Hout2 : lower caseless (lit "Abc1") ∉ BLACKLIST) by not_blacklisted.
  assert (Himp : forall k, get (check_criteria caseless (lit "abc")) k = true ->
                           get (check_criteria caseless (lit "Abc1")) k = true).
  { intros [] Hk; vm_compute in Hk |- *; first [reflexivity | discriminate Hk]. }
  split; [exact nonnegative_uniform_1|]. split; [exact Hout1|]. split; [exact Hout2|].
  split; [exact Himp|].
  exact (more_criteria_never_rate_lower caseless (lit "abc") (lit "Abc1") (uniform 1%Q)
           nonnegative_uniform_1 Hout1 Hout2 Himp).
Defined.

Lemma analyze_password_all_criteria ud (password : str) (weights : dict Q) :
  lower ud password ∉ BLACKLIST ->
  check_criteria ud password = uniform true ->
  ~ (max_score weights == 0)%Q ->
  analyze_password ud password weights
  = Returned (Analysed (uniform true) (max_score weights) (max_score weights)
                Strong affirmative).
Proof.
  intros Hout Hall Hnz.
  destruct (strength_level_exact (max_score weights) (max_score weights) Hnz)
    as (strength & Hs & HS & _).
  assert (strength = Strong) as ->.
  { apply HS. assert (max_score weights / max_score weights * 100 == 100)%Q as ->; [|lra].
    field. exact Hnz. }
  rewrite (analyze_password_analysed ud password weights Strong Hout);
    rewrite Hall; [|exact Hs].
  by rewrite build_feedback_Strong.
Qed.

(** X5. A password that meets all five criteria and is not blacklisted is
    Strong with the full score, whatever the weights, as long as
    [max_score] is not 0. *)
Theorem all_criteria_is_Strong ud (password : str) (weights : dict Q) :
  lower ud password ∉ BLACKLIST ->
  check_criteria ud password = uniform true ->
  ~ (max_score weights == 0)%Q ->
  analyze_password ud password weights
  = Returned (Analysed (uniform true) (max_score weights) (max_score weights)
                Strong affirmative).
Proof. apply analyze_password_all_criteria. Qed.

Lemma all_criteria_is_Strong_witness :
  (lower caseless (lit "Abcdefg1!") ∉ BLACKLIST) /\
  check_criteria caseless (lit "Abcdefg1!") = uniform true /\
  ~ (max_score (Dict 0%Q 0%Q 0%Q 0%Q (tenthsQ 1)) == 0)%Q /\
  analyze_password caseless (lit "Abcdefg1!") (Dict 0%Q 0%Q 0%Q 0%Q (tenthsQ 1))
  = Returned (Analysed (uniform true) (max_score (Dict 0%Q 0%Q 0%Q 0%Q (tenthsQ 1)))
                (max_score (Dict 0%Q 0%Q 0%Q 0%Q (tenthsQ 1))) Strong affirmative).
Proof.
  assert (Hout : lower caseless (lit "Abcdefg1!") ∉ BLACKLIST) by not_blacklisted.
  assert (Hall : check_criteria caseless (lit "Abcdefg1!") = uniform true) by reflexivity.
  assert (Hnz : ~ (max_score (Dict 0%Q 0%Q 0%Q 0%Q (tenthsQ 1)) == 0)%Q).
  { intros Hz. vm_compute in Hz. discriminate Hz. }
  split; [exact Hout|]. split; [exact Hall|]. split; [exact Hnz|].
  exact (all_criteria_is_Strong caseless (lit "Abcdefg1!") _ Hout Hall Hnz).
Defined.

(** X6. A password that meets none of the criteria and is not blacklisted
    is Weak with score 0 and gets all five hints, whatever the weights. *)
Theorem no_criteria_is_Weak ud (password : str) (weights : dict Q) :
  lower ud password ∉ BLACKLIST ->
  check_criteria ud password = uniform false ->
  analyze_password ud password weights
  = Returned (Analysed (uniform false) 0%Q (max_score weights) Weak
                (join newline [feedback_header; hint Length; hint Uppercase;
                               hint Lowercase; hint Digit; hint Special])).
Proof.
  intros Hout Hnone.
  assert (Hs : strength_level (total_score (uniform false) weights) (max_score weights)
               = Returned Weak).
  { destruct (Qeq_dec (max_score weights) 0) as [Hz|Hnz].
    - by apply strength_level_exact_zero.
    - destruct (strength_level_exact (total_score (uniform false) weights)
                  (max_score weights) Hnz) as (strength & Hs & _ & _ & HW).
      assert (strength = Weak) as ->; [|exact Hs].
      apply HW. change (total_score (uniform false) weights) with 0%Q.
      assert (0 / max_score weights * 100 == 0)%Q as -> by (field; exact Hnz). lra. }
  rewrite (analyze_password_analysed ud password weights Weak Hout);
    rewrite Hnone; [|exact Hs].
  reflexivity.
Qed.

Lemma no_criteria_is_Weak_witness :
  (lower caseless (lit "   ") ∉ BLACKLIST) /\
  check_criteria caseless (lit "   ") = uniform false /\
  analyze_password caseless (lit "   ") (uniform 1%Q)
  = Returned (Analysed (uniform false) 0%Q (max_score (uniform 1%Q)) Weak
                (join newline [feedback_header; hint Length; hint Uppercase;
                               hint Lowercase; hint Digit; hint Special])).
Proof.
  assert (Hout : lower caseless (lit "   ") ∉ BLACKLIST) by not_blacklisted.
  assert (Hnone : check_criteria caseless (lit "   ") = uniform false) by reflexivity.
  split; [exact Hout|]. split; [exact Hnone|].
  exact (no_criteria_is_Weak caseless (lit "   ") (uniform 1%Q) Hout Hnone).
Defined.

Lemma header_is_not_affirmative (hints : list string) :
  join newline (feedback_header :: hints) <> affirmative.
Proof.
  destruct (join_header hints) as [rest ->]. intros Heq.
  vm_compute in Heq. discriminate Heq.
Qed.

(** X7. The returned feedback is the affirmative message exactly when the
    label is Strong. *)
Theorem affirmative_iff_Strong ud {num : Type} `{Number num}
    (password : str) (weights : dict num) criteria score max strength feedback :
  analyze_password ud password weights
  = Returned (Analysed criteria score max strength feedback) ->
  (feedback = affirmative <-> strength = Strong).
Proof.
  intros Heq.
  destruct (decide (lower ud password ∈ BLACKLIST)) as [Hin|Hout].
  { rewrite (analyze_password_blacklisted ud password weights Hin) in Heq. discriminate Heq. }
  destruct (strength_level_returns
              (total_score (check_criteria ud password) weights) (max_score weights))
    as [strength' Hs].
  rewrite (analyze_password_analysed ud password weights strength' Hout Hs) in Heq.
  injection Heq as <- <- <- <- <-.
  destruct (decide (strength' = Strong)) as [->|Hne].
  - by rewrite build_feedback_Strong.
  - rewrite (build_feedback_not_Strong _ _ Hne), feedback_text_header.
    split; [|done]. intros Heq. by apply header_is_not_affirmative in Heq.
Qed.

Lemma affirmative_iff_Strong_witness :
  analyze_password caseless (lit "abc") (uniform 1%Q)
  = Returned (Analysed (Dict false false true false false) 1%Q 5%Q Weak
      (join newline [feedback_header; hint Length; hint Uppercase; hint Digit; hint Special]))
  /\ (join newline [feedback_header; hint Length; hint Uppercase; hint Digit; hint Special]
      = affirmative <-> Weak = Strong).
Proof.
  assert (Heq : analyze_password caseless (lit "abc") (uniform 1%Q)
    = Returned (Analysed (Dict false false true false false) 1%Q 5%Q Weak
        (join newline [feedback_header; hint Length; hint Uppercase; hint Digit; hint Special])))
    by reflexivity.
  split; [exact Heq|].
  exact (affirmative_iff_Strong caseless (lit "abc") (uniform 1%Q) _ _ _ _ _ Heq).
Defined.

(** *** What the blacklist can match *)

Lemma blacklist_shape (e : str) :
  e ∈ BLACKLIST ->
  (5 <= length e <= 9)%nat /\ forallb lower_alnum e = true.
Proof.
  intros He. apply blacklist_entries in He.
  repeat (apply elem_of_cons in He as [->|He]; [split; [simpl; lia | reflexivity]|]).
  by apply elem_of_nil in He.
Qed.

Lemma punctuation_not_alnum (c : char) :
  c ∈ punctuation -> lower_alnum (ascii_lower c) = false.
Proof.
  intros Hc. unfold punctuation in Hc. simpl in Hc.
  repeat (apply elem_of_cons in Hc as [->|Hc]; [reflexivity|]).
  by apply elem_of_nil in Hc.
Qed.

Lemma blacklisted_ascii_shape ud (password : str) :
  forallb isascii password = true ->
  lower ud password ∈ BLACKLIST ->
  (5 <= length password <= 9)%nat /\
  existsb (contains punctuation) password = false.
Proof.
  intros Hascii Hin. rewrite (lower_ascii ud password Hascii) in Hin.
  destruct (blacklist_shape _ Hin) as [Hlen Halnum].
  rewrite length_map in Hlen. split; [exact Hlen|].
  destruct (existsb (contains punctuation) password) eqn:E; [|done].
  apply existsb_exists in E as (c & Hc & Hp).
  unfold contains in Hp. apply bool_decide_eq_true in Hp.
  rewrite forallb_forall in Halnum.
  specialize (Halnum (ascii_lower c) (in_map _ _ _ Hc)).
  rewrite (punctuation_not_alnum c Hp) in Halnum. discriminate Halnum.
Qed.

(** X8. An ASCII password that holds a punctuation character, or that is
    shorter than 5 or longer than 9 characters, is never rejected: it is
    analysed. *)
Theorem special_or_long_is_analysed ud {num : Type} `{Number num}
    (password : str) (weights : dict num) :
  forallb isascii password = true ->
  existsb (contains punctuation) password = true \/
  (length password < 5)%nat \/ (9 < length password)%nat ->
  exists criteria score max strength feedback,
    analyze_password ud password weights
    = Returned (Analysed criteria score max strength feedback).
Proof.
  intros Hascii Hshape.
  assert (Hout : lower ud password ∉ BLACKLIST).
  { intros Hin. destruct (blacklisted_ascii_shape ud password Hascii Hin) as [Hlen Hp].
    destruct Hshape as [Hs|[Hs|Hs]]; [congruence | lia | lia]. }
  destruct (strength_level_returns
              (total_score (check_criteria ud password) weights) (max_score weights))
    as [strength Hs].
  eexists _, _, _, strength, _. by apply analyze_password_analysed.
Qed.

Lemma special_or_long_is_analysed_witness :
  forallb isascii (lit "password!") = true /\
  (existsb (contains punctuation) (lit "password!") = true \/
   (length (lit "password!") < 5)%nat \/ (9 < length (lit "password!"))%nat) /\
  exists criteria score max strength feedback,
    analyze_password caseless (lit "password!") (uniform 1%Q)
    = Returned (Analysed criteria score max strength feedback).
Proof.
  assert (Hascii : forallb isascii (lit "password!") = true) by reflexivity.
  assert (Hshape : existsb (contains punctuation) (lit "password!") = true \/
    (length (lit "password!") < 5)%nat \/ (9 < length (lit "password!"))%nat).
  { left. reflexivity. }
  split; [exact Hascii|]. split; [exact Hshape|].
  exact (special_or_long_is_analysed caseless (lit "password!") (uniform 1%Q) Hascii Hshape).
Defined.

(** ** More on the generator *)

Lemma all_chars_printable (c : char) : c ∈ all_chars -> printable c = true.
Proof.
  intros Hc. apply list_elem_of_In in Hc. revert c Hc. apply forallb_forall. reflexivity.
Qed.

Lemma printable_isascii (c : char) : printable c = true -> isascii c = true.
Proof.
  unfold printable, isascii. intros Hc. apply andb_true_iff in Hc as [_ Hc].
  apply N.leb_le in Hc. apply N.ltb_lt. lia.
Qed.

Lemma pools_in_all_chars (c : char) :
  c ∈ ascii_uppercase \/ c ∈ ascii_lowercase \/ c ∈ digits \/ c ∈ punctuation ->
  c ∈ all_chars.
Proof.
  unfold all_chars, ascii_letters. rewrite !elem_of_app. tauto.
Qed.

(** A run of the generator, with what the analyzer will see of its result. *)
Lemma generated_shape ud (n : Z) (t : tape) :
  exists s t',
    generate_strong_password n t = (Returned s, t') /\
    Z.of_nat (length s) = Z.max n 8 /\
    Forall (fun c => c ∈ all_chars) s /\
    (exists c, c ∈ s /\ c ∈ digits) /\
    (exists c, c ∈ s /\ c ∈ punctuation) /\
    check_criteria ud s = uniform true /\
    lower ud s ∉ BLACKLIST.
Proof.
  destruct (generate_strong_password_returns n t)
    as (s & t' & u & l & d & p & rest & Hgen & Hperm & Hk & Hu' & Hl' & Hd' & Hp' & Hrest).
  assert (Hin : forall c, c ∈ [u; l; d; p] -> c ∈ s).
  { intros c Hc. rewrite Hperm. apply elem_of_app. by left. }
  assert (Hu : u ∈ s) by (apply Hin; rewrite !elem_of_cons; tauto).
  assert (Hl : l ∈ s) by (apply Hin; rewrite !elem_of_cons; tauto).
  assert (Hd : d ∈ s) by (apply Hin; rewrite !elem_of_cons; tauto).
  assert (Hp : p ∈ s) by (apply Hin; rewrite !elem_of_cons; tauto).
  assert (Hlen : Z.of_nat (length s) = Z.max n 8).
  { rewrite (Permutation_length Hperm). simpl. rewrite Hk. lia. }
  assert (Hall : Forall (fun c => c ∈ all_chars) s).
  { rewrite Hperm. apply Forall_app. split; [|exact Hrest].
    do 4 (constructor; [apply pools_in_all_chars; tauto|]). constructor. }
  assert (Hascii : forallb isascii s = true).
  { apply forallb_forall. intros c Hc. apply printable_isascii, all_chars_printable.
    rewrite Forall_forall in Hall. apply Hall. by apply list_elem_of_In. }
  destruct (pools_meet_criteria ud) as (Hupper & Hlower & Hdigit).
  assert (Hspecial : existsb (contains punctuation) s = true).
  { apply (existsb_elem _ _ p Hp). unfold contains. by apply bool_decide_eq_true_2. }
  exists s, t'. split; [done|]. split; [done|]. split; [done|].
  split; [by exists d|]. split; [by exists p|]. split.
  - unfold check_criteria, uniform. f_equal.
    + apply Nat.leb_le. lia.
    + apply (existsb_elem _ _ u Hu). by apply (proj1 (Forall_forall _ _) Hupper).
    + apply (existsb_elem _ _ l Hl). by apply (proj1 (Forall_forall _ _) Hlower).
    + apply (existsb_elem _ _ d Hd). by apply (proj1 (Forall_forall _ _) Hdigit).
    + exact Hspecial.
  - intros Hbl. destruct (blacklisted_ascii_shape ud s Hascii Hbl) as [_ Hnone].
    congruence.
Qed.

(** X9. Every character of a generated password is one of the 94 characters
    of [ascii_letters + digits + punctuation]: printable ASCII, never a
    space or a control character. *)
Theorem generated_password_alphabet (n : Z) (t : tape) :
  exists s t',
    generate_strong_password n t = (Returned s, t') /\
    Forall (fun c => c ∈ ascii_letters ++ digits ++ punctuation) s /\
    Forall (fun c => 33 <= c <= 126) s /\
    length (ascii_letters ++ digits ++ punctuation) = 94%nat.
Proof.
  destruct (generated_shape caseless n t) as (s & t' & Hgen & _ & Hall & _).
  exists s, t'. split; [done|]. split; [exact Hall|]. split; [|reflexivity].
  eapply Forall_impl; [exact Hall|]. intros c Hc. simpl in Hc.
  apply all_chars_printable in Hc. unfold printable in Hc.
  apply andb_true_iff in Hc as [H1 H2]. apply N.leb_le in H1, H2. lia.
Qed.

(** X10. A generated password is never rejected by the analyzer, and with
    any weights whose [max_score] is not 0 it is rated Strong with the full
    score and the affirmative feedback. *)
Theorem generated_password_is_Strong ud (n : Z) (t : tape) (weights : dict Q) :
  ~ (max_score weights == 0)%Q ->
  exists s t',
    generate_strong_password n t = (Returned s, t') /\
    (lower ud s ∉ BLACKLIST) /\
    analyze_password ud s weights
    = Returned (Analysed (uniform true) (max_score weights) (max_score weights)
                  Strong affirmative).
Proof.
  intros Hnz.
  destruct (generated_shape ud n t) as (s & t' & Hgen & _ & _ & _ & _ & Hcrit & Hout).
  exists s, t'. split; [done|]. split; [done|].
  by apply analyze_password_all_criteria.
Qed.

Lemma generated_password_is_Strong_witness :
  ~ (max_score (uniform 1%Q) == 0)%Q /\
  exists s t',
    generate_strong_password 12 t0 = (Returned s, t') /\
    (lower caseless s ∉ BLACKLIST) /\
    analyze_password caseless s (uniform 1%Q)
    = Returned (Analysed (uniform true) (max_score (uniform 1%Q)) (max_score (uniform 1%Q))
                  Strong affirmative).
Proof.
  assert (Hnz : ~ (max_score (uniform 1%Q) == 0)%Q).
  { intros Hz. vm_compute in Hz. discriminate Hz. }
  split; [exact Hnz|].
  exact (generated_password_is_Strong caseless 12 t0 (uniform 1%Q) Hnz).
Defined.

(** ** The page *)

Section PageFacts.
Context (ud : UnicodeData) {num : Type} `{Number num}.
Implicit Types (i : inputs num) (w : world num).

Lemma analyzer_tab_idle i w :
  analyze_clicked i = false -> analyzer_tab ud i w = (Returned tt, w).
Proof. intros Hc. unfold analyzer_tab. by rewrite Hc. Qed.

Lemma analyzer_tab_empty i w :
  analyze_clicked i = true -> user_password i = [] ->
  analyzer_tab ud i w
  = (Returned tt,
     World (session w)
           (screen w ++ [st_warning "Please enter a password to analyze!"]) (rng w)).
Proof. intros Hc Hp. unfold analyzer_tab. by rewrite Hc, Hp. Qed.

Lemma analyzer_tab_rejected i w :
  analyze_clicked i = true -> user_password i <> [] ->
  lower ud (user_password i) ∈ BLACKLIST ->
  analyzer_tab ud i w
  = (Returned tt, World (session w) (screen w ++ [st_error rejection_message]) (rng w)).
Proof.
  intros Hc Hp Hin. unfold analyzer_tab. rewrite Hc.
  destruct (user_password i) as [|c p] eqn:Hpw; [done|].
  unfold ui_bind, compute. by rewrite (analyze_password_blacklisted ud _ _ Hin).
Qed.

Lemma analyzer_tab_zero i w :
  analyze_clicked i = true -> user_password i <> [] ->
  lower ud (user_password i) ∉ BLACKLIST ->
  num_eq (max_score (weights i)) (of_int 0) = true ->
  analyzer_tab ud i w
  = (Raised ZeroDivisionError,
     World (session w)
           (screen w ++
            analysis_calls (check_criteria ud (user_password i))
              (total_score (check_criteria ud (user_password i)) (weights i))
              (max_score (weights i)) Weak
              (join newline (feedback_header :: hints_for (check_criteria ud (user_password i)))))
           (rng w)).
Proof.
  intros Hc Hp Hout Hz. unfold analyzer_tab. rewrite Hc.
  destruct (user_password i) as [|c p] eqn:Hpw; [done|].
  unfold ui_bind at 1. unfold compute at 1.
  rewrite (analyze_password_analysed ud _ _ Weak Hout (strength_level_zero _ _ Hz)).
  rewrite build_feedback_not_Strong by discriminate. rewrite feedback_text_header.
  unfold ui_bind, show, compute, truediv. rewrite Hz. cbn.
  by rewrite <- !app_assoc.
Qed.

Lemma analyzer_tab_stored i w strength :
  analyze_clicked i = true -> user_password i <> [] ->
  lower ud (user_password i) ∉ BLACKLIST ->
  num_eq (max_score (weights i)) (of_int 0) = false ->
  strength_level (total_score (check_criteria ud (user_password i)) (weights i))
    (max_score (weights i)) = Returned strength ->
  let criteria := check_criteria ud (user_password i) in
  let score := total_score criteria (weights i) in
  let max := max_score (weights i) in
  let progress := num_quot score max in
  analyzer_tab ud i w
  = (Returned tt,
     World (Session (password_analysis (session w)
                     ++ [Entry (user_password i) strength score max])
                    (generated_passwords (session w)))
           (screen w ++
            analysis_calls criteria score max strength
              (feedback_text (build_feedback strength criteria)) ++
            [st_progress progress [Text "Security Level: "; Percent0 progress]])
           (rng w)).
Proof.
  intros Hc Hp Hout Hnz Hs. cbv zeta. unfold analyzer_tab. rewrite Hc.
  destruct (user_password i) as [|c p] eqn:Hpw; [done|].
  unfold ui_bind at 1. unfold compute at 1.
  rewrite (analyze_password_analysed ud _ _ strength Hout Hs).
  unfold ui_bind, show, compute, truediv, append_analysis. rewrite Hnz. cbn.
  by rewrite <- !app_assoc.
Qed.

Lemma generator_tab_idle i w :
  generate_clicked i = false -> generator_tab i w = (Returned tt, w).
Proof. intros Hc. unfold generator_tab. by rewrite Hc. Qed.

Lemma generator_tab_clicked i w s t' :
  generate_clicked i = true ->
  generate_strong_password (pass_length i) (rng w) = (Returned s, t') ->
  generator_tab i w
  = (Returned tt,
     World (Session (password_analysis (session w)) (generated_passwords (session w) ++ [s]))
           (screen w ++
            [st_success [Text "Generated Password: "; Chars s];
             st_download_button "Download Password" s "secure_password.txt" "text/plain"])
           t').
Proof.
  intros Hc Hgen. unfold generator_tab. rewrite Hc.
  unfold ui_bind, draw, show, append_generated. rewrite Hgen. cbn.
  by rewrite <- !app_assoc.
Qed.

Lemma write_all (passwords : list str) (m : UI num unit) w w' :
  m w = (Returned tt, w') ->
  fold_left (fun done password => done ;; show (st_write [Chars password]))%ui passwords m w
  = (Returned tt,
     World (session w')
           (screen w' ++ List.map (fun password => st_write [Chars password]) passwords)
           (rng w')).
Proof.
  revert m w'. induction passwords as [|p passwords IH]; intros m w' Hm; simpl.
  - rewrite Hm, app_nil_r. by destruct w'.
  - erewrite IH; [|unfold ui_bind, show; rewrite Hm; reflexivity].
    simpl. by rewrite <- app_assoc.
Qed.

Lemma dashboard_tab_draws w :
  dashboard_tab w
  = (Returned tt, World (session w) (screen w ++ dashboard_calls (session w)) (rng w)).
Proof.
  unfold dashboard_tab, dashboard_calls, read_session. unfold ui_bind at 1 2.
  destruct (password_analysis (session w)) as [|e es] eqn:Ha;
    (destruct (generated_passwords (session w)) as [|g gs] eqn:Hg;
     [ unfold show; cbn; by rewrite <- app_assoc
     | unfold show at 1; cbn [session screen rng];
       erewrite write_all; [|reflexivity]; cbn [session screen rng];
       by rewrite <- app_assoc ]).
Qed.

End PageFacts.

Section PageRuns.
Context (ud : UnicodeData) {num : Type} `{Number num}.
Implicit Types (i : inputs num) (w : world num).

Lemma main_analyzer_raised i w e w1 :
  analyzer_tab ud i w = (Raised e, w1) -> main ud i w = (Raised e, w1).
Proof. intros Ha. unfold main. unfold ui_bind at 1. by rewrite Ha. Qed.

Lemma main_generator_raised i w w1 e w2 :
  analyzer_tab ud i w = (Returned tt, w1) ->
  generator_tab i w1 = (Raised e, w2) ->
  main ud i w = (Raised e, w2).
Proof.
  intros Ha Hg. unfold main. unfold ui_bind at 1. rewrite Ha.
  unfold ui_bind at 1. by rewrite Hg.
Qed.

Lemma main_returned i w w1 w2 :
  analyzer_tab ud i w = (Returned tt, w1) ->
  generator_tab i w1 = (Returned tt, w2) ->
  main ud i w
  = (Returned tt, World (session w2) (screen w2 ++ dashboard_calls (session w2)) (rng w2)).
Proof.
  intros Ha Hg. unfold main. unfold ui_bind at 1. rewrite Ha.
  unfold ui_bind at 1. rewrite Hg. apply dashboard_tab_draws.
Qed.

(** What the analyzer tab does to the session state, in every case. *)
Lemma analyzer_tab_session i w :
  exists r w1,
    analyzer_tab ud i w = (r, w1) /\
    rng w1 = rng w /\
    generated_passwords (session w1) = generated_passwords (session w) /\
    exists new,
      password_analysis (session w1) = password_analysis (session w) ++ new /\
      (length new <= 1)%nat /\ Forall (sound_entry ud) new.
Proof.
  destruct (analyze_clicked i) eqn:Hc.
  2: { eexists _, _. split; [by apply analyzer_tab_idle|]. split; [done|]. split; [done|].
       exists []. rewrite app_nil_r. repeat split; [simpl; lia | constructor]. }
  destruct (decide (user_password i = [])) as [Hp|Hp].
  { eexists _, _. split; [by apply analyzer_tab_empty|]. split; [done|]. split; [done|].
    exists []. rewrite app_nil_r. repeat split; [simpl; lia | constructor]. }
  destruct (decide (lower ud (user_password i) ∈ BLACKLIST)) as [Hin|Hout].
  { eexists _, _. split; [by apply analyzer_tab_rejected|]. split; [done|]. split; [done|].
    exists []. rewrite app_nil_r. repeat split; [simpl; lia | constructor]. }
  destruct (num_eq (max_score (weights i)) (of_int 0)) eqn:Hz.
  { eexists _, _. split; [by apply analyzer_tab_zero|]. split; [done|]. split; [done|].
    exists []. rewrite app_nil_r. repeat split; [simpl; lia | constructor]. }
  destruct (strength_level_returns
              (total_score (check_criteria ud (user_password i)) (weights i))
              (max_score (weights i))) as [strength Hs].
  eexists _, _. split; [by apply (analyzer_tab_stored ud i w strength)|].
  split; [done|]. split; [done|].
  eexists [_]. split; [reflexivity|]. split; [simpl; lia|].
  constructor; [|constructor]. repeat split; try done. by exists (weights i).
Qed.

(** What the generator tab does to the session state, in every case. *)
Lemma generator_tab_session i w :
  exists w1,
    generator_tab i w = (Returned tt, w1) /\
    password_analysis (session w1) = password_analysis (session w) /\
    exists new,
      generated_passwords (session w1) = generated_passwords (session w) ++ new /\
      (length new <= 1)%nat /\ Forall (sound_generated ud) new.
Proof.
  destruct (generate_clicked i) eqn:Hc.
  2: { eexists. split; [by apply generator_tab_idle|]. split; [done|].
       exists []. rewrite app_nil_r. repeat split; [simpl; lia | constructor]. }
  destruct (generated_shape ud (pass_length i) (rng w))
    as (s & t' & Hgen & Hlen & _ & _ & _ & Hcrit & Hout).
  eexists. split; [by apply (generator_tab_clicked i w s t')|]. split; [done|].
  exists [s]. split; [done|]. split; [simpl; lia|].
  constructor; [|constructor]. repeat split; try done. lia.
Qed.

(** What a whole run does to the session state. *)
Lemma rerun_session w i :
  exists new_analysis new_generated,
    password_analysis (session (rerun ud w i))
    = password_analysis (session w) ++ new_analysis /\
    generated_passwords (session (rerun ud w i))
    = generated_passwords (session w) ++ new_generated /\
    Forall (sound_entry ud) new_analysis /\
    Forall (sound_generated ud) new_generated.
Proof.
  unfold rerun. set (w0 := World (session w) [] (rng w)).
  destruct (analyzer_tab_session i w0)
    as (r & w1 & Ha & _ & Hg1 & new_a & Ha1 & _ & Hsound_a).
  destruct r as [[]|e].
  - destruct (generator_tab_session i w1) as (w2 & Hg & Ha2 & new_g & Hg2 & _ & Hsound_g).
    rewrite (main_returned i w0 w1 w2 Ha Hg). simpl.
    exists new_a, new_g. rewrite Ha2, Ha1, Hg2, Hg1. by repeat split.
  - rewrite (main_analyzer_raised i w0 e w1 Ha). simpl.
    exists new_a, []. rewrite Ha1, Hg1, app_nil_r. by repeat split.
Qed.

(** X14. Over any sequence of runs the two histories only grow at the end:
    what was stored stays, in order. Every analysis entry added comes from a
    password that is not empty and not blacklisted, analysed with a
    [max_score] that is not 0, and carries its score and label; every
    generated password added has at least 8 characters, meets all five
    criteria and is not blacklisted. *)
Theorem reruns_session w (interactions : list (inputs num)) :
  exists new_analysis new_generated,
    password_analysis (session (reruns ud w interactions))
    = password_analysis (session w) ++ new_analysis /\
    generated_passwords (session (reruns ud w interactions))
    = generated_passwords (session w) ++ new_generated /\
    Forall (sound_entry ud) new_analysis /\
    Forall (sound_generated ud) new_generated.
Proof.
  revert w. induction interactions as [|i interactions IH]; intros w.
  - exists [], []. simpl. by rewrite !app_nil_r.
  - simpl. destruct (rerun_session w i) as (a1 & g1 & Ha1 & Hg1 & Hsa1 & Hsg1).
    destruct (IH (rerun ud w i)) as (a2 & g2 & Ha2 & Hg2 & Hsa2 & Hsg2).
    exists (a1 ++ a2), (g1 ++ g2). unfold reruns in *.
    rewrite Ha2, Ha1, Hg2, Hg1, <- !app_assoc.
    repeat split; by apply Forall_app.
Qed.

End PageRuns.

(** X11. A click on Analyze with a password that is not empty and not
    blacklisted, while [max_score] is 0 (all sliders at 0), ends the run
    with [ZeroDivisionError] at the progress bar: the label Weak, the
    criteria table and the feedback have been drawn, nothing is stored, the
    generator tab and the dashboard are not reached. *)
Theorem zero_weights_stop_the_run ud {num : Type} `{Number num}
    (i : inputs num) (w : world num) :
  analyze_clicked i = true ->
  user_password i <> [] ->
  lower ud (user_password i) ∉ BLACKLIST ->
  num_eq (max_score (weights i)) (of_int 0) = true ->
  main ud i w
  = (Raised ZeroDivisionError,
     World (session w)
           (screen w ++
            analysis_calls (check_criteria ud (user_password i))
              (total_score (check_criteria ud (user_password i)) (weights i))
              (max_score (weights i)) Weak
              (join newline (feedback_header :: hints_for (check_criteria ud (user_password i)))))
           (rng w)).
Proof.
  intros Hc Hp Hout Hz. apply main_analyzer_raised. by apply analyzer_tab_zero.
Qed.

Lemma zero_weights_stop_the_run_witness :
  analyze_clicked (analyze_click (lit "Abcdefg1!") (uniform 0%Q)) = true /\
  user_password (analyze_click (lit "Abcdefg1!") (uniform 0%Q)) <> [] /\
  (lower caseless (user_password (analyze_click (lit "Abcdefg1!") (uniform 0%Q)))
   ∉ BLACKLIST) /\
  num_eq (max_score (weights (analyze_click (lit "Abcdefg1!") (uniform 0%Q)))) (of_int 0)
  = true /\
  main caseless (analyze_click (lit "Abcdefg1!") (uniform 0%Q)) fresh
  = (Raised ZeroDivisionError,
     World (session fresh)
           (screen fresh ++
            analysis_calls (check_criteria caseless (lit "Abcdefg1!"))
              (total_score (check_criteria caseless (lit "Abcdefg1!")) (uniform 0%Q))
              (max_score (uniform 0%Q)) Weak
              (join newline
                 (feedback_header :: hints_for (check_criteria caseless (lit "Abcdefg1!")))))
           (rng (fresh (num := Q)))).
Proof.
  assert (Hc : analyze_clicked (analyze_click (lit "Abcdefg1!") (uniform 0%Q)) = true)
    by reflexivity.
  assert (Hp : user_password (analyze_click (lit "Abcdefg1!") (uniform 0%Q)) <> [])
    by discriminate.
  assert (Hout : lower caseless (user_password (analyze_click (lit "Abcdefg1!") (uniform 0%Q)))
                 ∉ BLACKLIST) by not_blacklisted.
  assert (Hz : num_eq (max_score (weights (analyze_click (lit "Abcdefg1!") (uniform 0%Q))))
                 (of_int 0) = true) by reflexivity.
  split; [exact Hc|]. split; [exact Hp|]. split; [exact Hout|]. split; [exact Hz|].
  exact (zero_weights_stop_the_run caseless _ fresh Hc Hp Hout Hz).
Defined.

(** The same run on binary64, with every slider at 0.0. *)
Example zero_sliders_binary64 :
  fst (main caseless (analyze_click (lit "Abcdefg1!") (uniform 0%float)) fresh)
  = Raised ZeroDivisionError.
Proof. vm_compute. reflexivity. Qed.

(** X12. A click on Analyze with a password that is not empty and not
    blacklisted, while [max_score] is not 0, draws the analysis and the
    progress [score / max_score], appends one entry with the password as
    typed, its label, score and [max_score], and the dashboard of the same
    run already shows the grown history. *)
Theorem analysis_is_stored ud {num : Type} `{Number num}
    (i : inputs num) (w : world num) :
  analyze_clicked i = true ->
  generate_clicked i = false ->
  user_password i <> [] ->
  lower ud (user_password i) ∉ BLACKLIST ->
  num_eq (max_score (weights i)) (of_int 0) = false ->
  let criteria := check_criteria ud (user_password i) in
  let score := total_score criteria (weights i) in
  let max := max_score (weights i) in
  exists strength,
    strength_level score max = Returned strength /\
    let state := Session (password_analysis (session w)
                          ++ [Entry (user_password i) strength score max])
                         (generated_passwords (session w)) in
    main ud i w
    = (Returned tt,
       World state
             ((screen w ++
               analysis_calls criteria score max strength
                 (feedback_text (build_feedback strength criteria)) ++
               [st_progress (num_quot score max)
                  [Text "Security Level: "; Percent0 (num_quot score max)]]) ++
              dashboard_calls state)
             (rng w)).
Proof.
  intros Hc Hg Hp Hout Hnz. cbv zeta.
  destruct (strength_level_returns
              (total_score (check_criteria ud (user_password i)) (weights i))
              (max_score (weights i))) as [strength Hs].
  exists strength. split; [exact Hs|].
  erewrite main_returned;
    [ | by apply (analyzer_tab_stored ud i w strength) | by apply generator_tab_idle ].
  reflexivity.
Qed.

Lemma analysis_is_stored_witness :
  analyze_clicked (analyze_click (lit "abc") (uniform 1%Q)) = true /\
  generate_clicked (analyze_click (lit "abc") (uniform 1%Q)) = false /\
  user_password (analyze_click (lit "abc") (uniform 1%Q)) <> [] /\
  (lower caseless (user_password (analyze_click (lit "abc") (uniform 1%Q))) ∉ BLACKLIST) /\
  num_eq (max_score (weights (analyze_click (lit "abc") (uniform 1%Q)))) (of_int 0) = false /\
  password_analysis (session (snd (main caseless (analyze_click (lit "abc") (uniform 1%Q)) fresh)))
  = [Entry (lit "abc") Weak 1%Q 5%Q].
Proof.
  assert (Hc : analyze_clicked (analyze_click (lit "abc") (uniform 1%Q)) = true)
    by reflexivity.
  assert (Hg : generate_clicked (analyze_click (lit "abc") (uniform 1%Q)) = false)
    by reflexivity.
  assert (Hp : user_password (analyze_click (lit "abc") (uniform 1%Q)) <> [])
    by discriminate.
  assert (Hout : lower caseless (user_password (analyze_click (lit "abc") (uniform 1%Q)))
                 ∉ BLACKLIST) by not_blacklisted.
  assert (Hz : num_eq (max_score (weights (analyze_click (lit "abc") (uniform 1%Q))))
                 (of_int 0) = false) by reflexivity.
  split; [exact Hc|]. split; [exact Hg|]. split; [exact Hp|]. split; [exact Hout|].
  split; [exact Hz|].
  destruct (analysis_is_stored caseless (analyze_click (lit "abc") (uniform 1%Q)) fresh
              Hc Hg Hp Hout Hz) as (strength & Hs & Hmain).
  rewrite Hmain. simpl. vm_compute in Hs. injection Hs as <-. reflexivity.
Defined.

Lemma progress_bounds (criteria : dict bool) (weights : dict Q) :
  nonnegative weights -> ~ (max_score weights == 0)%Q ->
  (0 <= total_score criteria weights / max_score weights <= 1)%Q.
Proof.
  intros Hw Hnz. destruct (score_bounds criteria weights Hw) as [H0 H1].
  assert (Hpos : (0 < max_score weights)%Q).
  { assert (Hm : (0 <= max_score weights)%Q) by (eapply Qle_trans; eauto).
    apply Qle_lteq in Hm as [Hm|Hm]; [done|]. destruct Hnz. by symmetry. }
  split.
  - apply Qle_shift_div_l; [done|]. lra.
  - apply Qle_shift_div_r; [done|]. lra.
Qed.

(** X13. With weights that are not negative and a [max_score] that is not
    0, the value handed to the progress bar is [score / max_score] and lies
    between 0 and 1. *)
Theorem progress_within_unit ud (i : inputs Q) (w : world Q) :
  analyze_clicked i = true ->
  user_password i <> [] ->
  lower ud (user_password i) ∉ BLACKLIST ->
  nonnegative (weights i) ->
  ~ (max_score (weights i) == 0)%Q ->
  exists w1 calls progress text,
    analyzer_tab ud i w = (Returned tt, w1) /\
    screen w1 = screen w ++ calls ++ [st_progress progress text] /\
    progress = (total_score (check_criteria ud (user_password i)) (weights i)
                / max_score (weights i))%Q /\
    (0 <= progress)%Q /\ (progress <= 1)%Q.
Proof.
  intros Hc Hp Hout Hw Hnz.
  assert (Hnzb : num_eq (max_score (weights i)) (of_int 0) = false).
  { destruct (num_eq (max_score (weights i)) (of_int 0)) eqn:E; [|done].
    apply Qeq_bool_iff in E. by destruct Hnz. }
  destruct (strength_level_returns
              (total_score (check_criteria ud (user_password i)) (weights i))
              (max_score (weights i))) as [strength Hs].
  eexists _, _, _, _.
  split; [by apply (analyzer_tab_stored ud i w strength)|].
  split; [reflexivity|]. split; [reflexivity|].
  by apply progress_bounds.
Qed.

Lemma progress_within_unit_witness :
  analyze_clicked (analyze_click (lit "abc") (uniform 1%Q)) = true /\
  user_password (analyze_click (lit "abc") (uniform 1%Q)) <> [] /\
  (lower caseless (user_password (analyze_click (lit "abc") (uniform 1%Q))) ∉ BLACKLIST) /\
  nonnegative (weights (analyze_click (lit "abc") (uniform 1%Q))) /\
  ~ (max_score (weights (analyze_click (lit "abc") (uniform 1%Q))) == 0)%Q /\
  exists w1 calls progress text,
    analyzer_tab caseless (analyze_click (lit "abc") (uniform 1%Q)) fresh
    = (Returned tt, w1) /\
    screen w1 = screen fresh ++ calls ++ [st_progress progress text] /\
    progress = (total_score (check_criteria caseless (lit "abc")) (uniform 1%Q)
                / max_score (uniform 1%Q))%Q /\
    (0 <= progress)%Q /\ (progress <= 1)%Q.
Proof.
  assert (Hc : analyze_clicked (analyze_click (lit "abc") (uniform 1%Q)) = true)
    by reflexivity.
  assert (Hp : user_password (analyze_click (lit "abc") (uniform 1%Q)) <> [])
    by discriminate.
  assert (Hout : lower caseless (user_password (analyze_click (lit "abc") (uniform 1%Q)))
                 ∉ BLACKLIST) by not_blacklisted.
  assert (Hnz : ~ (max_score (weights (analyze_click (lit "abc") (uniform 1%Q))) == 0)%Q).
  { intros Hz. vm_compute in Hz. discriminate Hz. }
  split; [exact Hc|]. split; [exact Hp|]. split; [exact Hout|].
  split; [exact nonnegative_uniform_1|]. split; [exact Hnz|].
  exact (progress_within_unit caseless (analyze_click (lit "abc") (uniform 1%Q)) fresh
           Hc Hp Hout nonnegative_uniform_1 Hnz).
Defined.

(** X15. A click on Generate always completes: the password is shown,
    offered for download as [secure_password.txt], appended to the history
    and listed by the dashboard of the same run. It has [max pass_length 8]
    characters and holds a digit and a punctuation character whatever the
    two checkboxes say. *)
Theorem generate_click_ignores_checkboxes ud {num : Type} `{Number num}
    (i : inputs num) (w : world num) :
  analyze_clicked i = false ->
  generate_clicked i = true ->
  exists s t',
    generate_strong_password (pass_length i) (rng w) = (Returned s, t') /\
    (let state := Session (password_analysis (session w))
                          (generated_passwords (session w) ++ [s]) in
     main ud i w
     = (Returned tt,
        World state
              ((screen w ++
                [st_success [Text "Generated Password: "; Chars s];
                 st_download_button "Download Password" s
                   "secure_password.txt" "text/plain"]) ++
               dashboard_calls state)
              t')) /\
    Z.of_nat (length s) = Z.max (pass_length i) 8 /\
    (exists c, c ∈ s /\ c ∈ digits) /\
    (exists c, c ∈ s /\ c ∈ punctuation).
Proof.
  intros Hc Hg.
  destruct (generated_shape ud (pass_length i) (rng w))
    as (s & t' & Hgen & Hlen & _ & Hd & Hp & _).
  exists s, t'. split; [exact Hgen|]. split; [|by repeat split].
  cbv zeta. erewrite main_returned;
    [ | by apply analyzer_tab_idle | by apply (generator_tab_clicked i w s t') ].
  reflexivity.
Qed.

Lemma generate_click_ignores_checkboxes_witness :
  analyze_clicked (generate_click (uniform 1%Q) 12 false false) = false /\
  generate_clicked (generate_click (uniform 1%Q) 12 false false) = true /\
  exists s t',
    generate_strong_password (pass_length (generate_click (uniform 1%Q) 12 false false))
      (rng (fresh (num := Q))) = (Returned s, t') /\
    (let state := Session (password_analysis (session (fresh (num := Q))))
                          (generated_passwords (session (fresh (num := Q))) ++ [s]) in
     main caseless (generate_click (uniform 1%Q) 12 false false) fresh
     = (Returned tt,
        World state
              ((screen fresh ++
                [st_success [Text "Generated Password: "; Chars s];
                 st_download_button "Download Password" s
                   "secure_password.txt" "text/plain"]) ++
               dashboard_calls state)
              t')) /\
    Z.of_nat (length s) = Z.max (pass_length (generate_click (uniform 1%Q) 12 false false)) 8 /\
    (exists c, c ∈ s /\ c ∈ digits) /\
    (exists c, c ∈ s /\ c ∈ punctuation).
Proof.
  assert (Hc : analyze_clicked (generate_click (uniform 1%Q) 12 false false) = false)
    by reflexivity.
  assert (Hg : generate_clicked (generate_click (uniform 1%Q) 12 false false) = true)
    by reflexivity.
  split; [exact Hc|]. split; [exact Hg|].
  exact (generate_click_ignores_checkboxes caseless
           (generate_click (uniform 1%Q) 12 false false) fresh Hc Hg).
Defined.

(** With both checkboxes cleared the password still holds digits and
    punctuation. *)
Example unchecked_boxes :
  generated_passwords
    (session (snd (main caseless (generate_click (uniform 1%Q) 12 false false) fresh)))
  = [lit "7F7M%,0=DkT]"].
Proof. vm_compute. reflexivity. Qed.

(** X16. The dashboard leaves the session state as it is and lists every
    generated password of the history, in clear and in order; a history of
    analyses that is not empty is shown whole, passwords included. *)
Theorem dashboard_lists_passwords {num : Type} (w : world num) :
  dashboard_tab w
  = (Returned tt, World (session w) (screen w ++ dashboard_calls (session w)) (rng w)) /\
  (forall password, password ∈ generated_passwords (session w) ->
                    st_write [Chars password] ∈ dashboard_calls (session w)) /\
  (password_analysis (session w) <> [] ->
   st_history (password_analysis (session w)) ∈ dashboard_calls (session w)).
Proof.
  split; [apply dashboard_tab_draws|]. unfold dashboard_calls. split.
  - intros password Hin. apply elem_of_app. right.
    destruct (generated_passwords (session w)) as [|g gs] eqn:Hg.
    + by apply elem_of_nil in Hin.
    + apply list_elem_of_In.
      apply (in_map (fun password => st_write (num := num) [Chars password])).
      by apply list_elem_of_In.
  - intros Hne. apply elem_of_app. left.
    destruct (password_analysis (session w)); [done|]. apply list_elem_of_here.
Qed.

(** ** Weights *)

Lemma strength_level_percent (total1 max1 total2 max2 : Q) :
  ~ (max1 == 0)%Q -> ~ (max2 == 0)%Q ->
  (total1 / max1 * 100 == total2 / max2 * 100)%Q ->
  strength_level total1 max1 = strength_level total2 max2.
Proof.
  intros Hnz1 Hnz2 Heq.
  destruct (strength_level_exact total1 max1 Hnz1) as (s1 & -> & HS1 & HM1 & HW1).
  destruct (strength_level_exact total2 max2 Hnz2) as (s2 & -> & HS2 & HM2 & HW2).
  rewrite Heq in HS1, HM1, HW1. f_equal.
  destruct s1.
  - symmetry. apply HW2. by apply HW1.
  - symmetry. apply HM2. by apply HM1.
  - symmetry. apply HS2. by apply HS1.
Qed.

(** X18. Only the proportions of the weights matter: multiplying every
    weight by the same positive factor changes neither the label nor the
    feedback of any password. *)
Theorem label_is_scale_invariant ud (password : str) (weights : dict Q) (factor : Q) :
  (0 < factor)%Q ->
  lower ud password ∉ BLACKLIST ->
  exists strength feedback,
    analyze_password ud password weights
    = Returned (Analysed (check_criteria ud password)
                  (total_score (check_criteria ud password) weights)
                  (max_score weights) strength feedback) /\
    analyze_password ud password (scale factor weights)
    = Returned (Analysed (check_criteria ud password)
                  (total_score (check_criteria ud password) (scale factor weights))
                  (max_score (scale factor weights)) strength feedback) /\
    (total_score (check_criteria ud password) (scale factor weights)
     == factor * total_score (check_criteria ud password) weights)%Q /\
    (max_score (scale factor weights) == factor * max_score weights)%Q.
Proof.
  intros Hf Hout. set (criteria := check_criteria ud password).
  assert (Ht : (total_score criteria (scale factor weights)
                == factor * total_score criteria weights)%Q).
  { rewrite !total_score_terms. destruct criteria as [[] [] [] [] []], weights; cbn; ring. }
  assert (Hm : (max_score (scale factor weights) == factor * max_score weights)%Q).
  { rewrite !max_score_terms. destruct weights; cbn; ring. }
  destruct (strength_level_returns (total_score criteria weights) (max_score weights))
    as [strength Hs].
  assert (Hs' : strength_level (total_score criteria (scale factor weights))
                  (max_score (scale factor weights)) = Returned strength).
  { rewrite <- Hs. destruct (Qeq_dec (max_score weights) 0) as [Hz|Hnz].
    - rewrite !strength_level_exact_zero; [done | done |]. rewrite Hm, Hz. ring.
    - assert (Hnz' : ~ (max_score (scale factor weights) == 0)%Q).
      { rewrite Hm. intros Hz. apply Qmult_integral in Hz as [Hz|Hz]; [lra | done]. }
      apply strength_level_percent; [done | done |].
      rewrite Ht, Hm. field. split; [done | lra]. }
  exists strength, (feedback_text (build_feedback strength criteria)).
  split; [by apply analyze_password_analysed|].
  split; [by apply analyze_password_analysed|]. by split.
Qed.

Lemma label_is_scale_invariant_witness :
  (0 < 5)%Q /\
  (lower caseless (lit "Abc1") ∉ BLACKLIST) /\
  exists strength feedback,
    analyze_password caseless (lit "Abc1") (uniform 1%Q)
    = Returned (Analysed (check_criteria caseless (lit "Abc1"))
                  (total_score (check_criteria caseless (lit "Abc1")) (uniform 1%Q))
                  (max_score (uniform 1%Q)) strength feedback) /\
    analyze_password caseless (lit "Abc1") (scale 5 (uniform 1%Q))
    = Returned (Analysed (check_criteria caseless (lit "Abc1"))
                  (total_score (check_criteria caseless (lit "Abc1")) (scale 5 (uniform 1%Q)))
                  (max_score (scale 5 (uniform 1%Q))) strength feedback) /\
    (total_score (check_criteria caseless (lit "Abc1")) (scale 5 (uniform 1%Q))
     == 5 * total_score (check_criteria caseless (lit "Abc1")) (uniform 1%Q))%Q /\
    (max_score (scale 5 (uniform 1%Q)) == 5 * max_score (uniform 1%Q))%Q.
Proof.
  assert (Hf : (0 < 5)%Q) by reflexivity.
  assert (Hout : lower caseless (lit "Abc1") ∉ BLACKLIST) by not_blacklisted.
  split; [exact Hf|]. split; [exact Hout|].
  exact (label_is_scale_invariant caseless (lit "Abc1") (uniform 1%Q) 5 Hf Hout).
Defined.

Lemma count_percent (n : nat) :
  ((80 <= inject_Z (Z.of_nat n) * 20)%Q <-> (4 <= n)%nat) /\
  ((40 <= inject_Z (Z.of_nat n) * 20)%Q <-> (2 <= n)%nat) /\
  ((inject_Z (Z.of_nat n) * 20 < 80)%Q <-> (n <= 3)%nat) /\
  ((inject_Z (Z.of_nat n) * 20 < 40)%Q <-> (n <= 1)%nat).
Proof. unfold Qle, Qlt, Qmult, inject_Z. simpl. lia. Qed.

(** X19. In exact arithmetic, with five equal positive weights, the score is
    the number of criteria met times the weight and the label counts the
    criteria met: Strong from four, Moderate for two or three, Weak for one
    or none. *)
Theorem equal_weights_count_criteria ud (password : str) (weight : Q) :
  (0 < weight)%Q ->
  lower ud password ∉ BLACKLIST ->
  exists score strength feedback,
    analyze_password ud password (uniform weight)
    = Returned (Analysed (check_criteria ud password) score
                  (max_score (uniform weight)) strength feedback) /\
    (score == inject_Z (Z.of_nat (met_count (check_criteria ud password))) * weight)%Q /\
    (strength = Strong <-> (4 <= met_count (check_criteria ud password))%nat) /\
    (strength = Moderate <-> (2 <= met_count (check_criteria ud password) <= 3)%nat) /\
    (strength = Weak <-> (met_count (check_criteria ud password) <= 1)%nat).
Proof.
  intros Hw Hout. set (criteria := check_criteria ud password).
  assert (Hm : (max_score (uniform weight) == 5 * weight)%Q).
  { rewrite max_score_terms. cbn. ring. }
  assert (Hnz : ~ (max_score (uniform weight) == 0)%Q) by (rewrite Hm; lra).
  assert (Ht : (total_score criteria (uniform weight)
                == inject_Z (Z.of_nat (met_count criteria)) * weight)%Q).
  { rewrite total_score_terms. destruct criteria as [[] [] [] [] []]; cbn; ring. }
  destruct (strength_level_exact (total_score criteria (uniform weight))
              (max_score (uniform weight)) Hnz) as (strength & Hs & HS & HM & HW).
  assert (Hp : (total_score criteria (uniform weight) / max_score (uniform weight) * 100
                == inject_Z (Z.of_nat (met_count criteria)) * 20)%Q).
  { rewrite Ht, Hm. field. lra. }
  rewrite Hp in HS, HM, HW.
  exists (total_score criteria (uniform weight)), strength,
    (feedback_text (build_feedback strength criteria)).
  split; [by apply analyze_password_analysed|]. split; [exact Ht|].
  rewrite HS, HM, HW.
  destruct (count_percent (met_count criteria)) as (H80 & H40 & H80' & H40').
  rewrite H80, H40, H80', H40'. repeat split; intros; destruct_and?; lia.
Qed.

Lemma equal_weights_count_criteria_witness :
  (0 < 1)%Q /\
  (lower caseless (lit "Abc1") ∉ BLACKLIST) /\
  exists score strength feedback,
    analyze_password caseless (lit "Abc1") (uniform 1%Q)
    = Returned (Analysed (check_criteria caseless (lit "Abc1")) score
                  (max_score (uniform 1%Q)) strength feedback) /\
    (score == inject_Z (Z.of_nat (met_count (check_criteria caseless (lit "Abc1")))) * 1)%Q /\
    (strength = Strong <-> (4 <= met_count (check_criteria caseless (lit "Abc1")))%nat) /\
    (strength = Moderate <-> (2 <= met_count (check_criteria caseless (lit "Abc1")) <= 3)%nat) /\
    (strength = Weak <-> (met_count (check_criteria caseless (lit "Abc1")) <= 1)%nat).
Proof.
  assert (Hw : (0 < 1)%Q) by reflexivity.
  assert (Hout : lower caseless (lit "Abc1") ∉ BLACKLIST) by not_blacklisted.
  split; [exact Hw|]. split; [exact Hout|].
  exact (equal_weights_count_criteria caseless (lit "Abc1") 1 Hw Hout).
Defined.

(** The same count on binary64 with every weight 1.0, the values the weight
    inputs of [main] start with. *)
Lemma unit_weights_count_criteria_binary64 ud (password : str) :
  lower ud password ∉ BLACKLIST ->
  exists score strength feedback,
    analyze_password ud password (uniform 1%float)
    = Returned (Analysed (check_criteria ud password) score
                  (max_score (uniform 1%float)) strength feedback) /\
    (strength = Strong <-> (4 <= met_count (check_criteria ud password))%nat) /\
    (strength = Moderate <-> (2 <= met_count (check_criteria ud password) <= 3)%nat) /\
    (strength = Weak <-> (met_count (check_criteria ud password) <= 1)%nat).
Proof.
  intros Hout.
  pose proof (analyze_password_analysed ud password (uniform 1%float)) as Han.
  destruct (check_criteria ud password) as [[] [] [] [] []];
    (eexists _, _, _; split;
     [ eapply Han; [exact Hout | vm_compute; reflexivity]
     | cbn; repeat split; intros; destruct_and?;
       first [reflexivity | lia | discriminate] ]).
Qed.
